(** * lava_api.business: response reconciliation, webhook handling, signing

    A shallow embedding of [src/lava_api/business.py] and the properties of
    its specification.

    Modelling conventions.
    - A Python [str] is a Rocq [string], one character per code point; the
      strings of the model are those over U+0000..U+00FF.  [str.lower] and
      the UTF-8 encoder are written out for that range.  The signer is
      given a second time on strs in full, as lists of code points up to
      U+10FFFF ([Text]), where a lone surrogate has no encoding.
    - The keys of a [dict] are strs; what line 242 of [handle_webhook] does
      with a header name of another type is [lowered_items].
    - A decoded JSON document (and any other Python object that reaches the
      code) is a [pyval]; a [dict] is an association list in insertion
      order, looked up from the front.
    - A Python [float] is a [spec_float] (binary64).
    - Exceptions are values of [exn]; code that may raise returns a
      [result].  [try]/[except] is [try_except].
    - [handle_webhook] receives two dict objects by reference; they live in
      a [store] and the function runs in a state-and-exception monad.
    - CPython library routines whose output format is outside the
      repository ([int] and [float] of a [str], [str] of a container or a
      float, [datetime.strptime], the random generator) are the fields of
      the class [PyRuntime].
    - The HTTP exchange itself is not modelled: each remote operation is
      embedded as the request it sends and, separately, from the point where
      the decoded response is at hand.  Calls to [print] are left out. *)

From Stdlib Require Import ZArith List String Ascii Bool Lia.
From Stdlib Require Import Floats.SpecFloat.
From stdpp Require Import gmap strings.
Import ListNotations.

Open Scope string_scope.
Open Scope Z_scope.
Open Scope list_scope.

(** ** Byte strings *)

(** [bytes] objects: each element is a value in 0..255. *)
Definition bytes := list Z.

Definition code_point (c : ascii) : Z := Z.of_N (N_of_ascii c).

(** [str.encode()] / [bytes(s, 'UTF-8')] on code points below U+0100:
    one byte below U+0080, two bytes from there on. *)
Definition utf8_char (c : ascii) : bytes :=
  let n := code_point c in
  if n <? 128 then [n]
  else [Z.lor 192 (Z.shiftr n 6); Z.lor 128 (Z.land n 63)].

Definition utf8_encode (s : string) : bytes :=
  flat_map utf8_char (list_ascii_of_string s).

Definition hex_digit (n : Z) : ascii :=
  match n mod 16 with
  | 0 => "0" | 1 => "1" | 2 => "2" | 3 => "3" | 4 => "4" | 5 => "5"
  | 6 => "6" | 7 => "7" | 8 => "8" | 9 => "9" | 10 => "a" | 11 => "b"
  | 12 => "c" | 13 => "d" | 14 => "e" | _ => "f"
  end%char.

(** [bytes.hex()], as used by [hexdigest]. *)
Fixpoint hex_of_bytes (bs : bytes) : string :=
  match bs with
  | [] => EmptyString
  | b :: bs' => String (hex_digit (b / 16)) (String (hex_digit b) (hex_of_bytes bs'))
  end.

Definition is_lower_hex (c : ascii) : bool :=
  let n := code_point c in
  ((48 <=? n) && (n <=? 57)) || ((97 <=? n) && (n <=? 102)).

(** ** SHA-256 and HMAC

    [hashlib.sha256] and [hmac.new] are CPython library code; they are
    written here after FIPS 180-4 and RFC 2104, on 32-bit words held in [Z]
    with the wrap-around explicit. *)
Module SHA256.

Definition wrap32 (x : Z) : Z := Z.land x 0xFFFFFFFF.
Definition add32 (x y : Z) : Z := wrap32 (x + y).
Definition rotr (x n : Z) : Z :=
  Z.lor (Z.shiftr x n) (wrap32 (Z.shiftl x (32 - n))).
Definition not32 (x : Z) : Z := Z.lxor x 0xFFFFFFFF.

Definition Ch (x y z : Z) : Z := Z.lxor (Z.land x y) (Z.land (not32 x) z).
Definition Maj (x y z : Z) : Z :=
  Z.lxor (Z.lxor (Z.land x y) (Z.land x z)) (Z.land y z).
Definition bsig0 (x : Z) : Z := Z.lxor (Z.lxor (rotr x 2) (rotr x 13)) (rotr x 22).
Definition bsig1 (x : Z) : Z := Z.lxor (Z.lxor (rotr x 6) (rotr x 11)) (rotr x 25).
Definition ssig0 (x : Z) : Z := Z.lxor (Z.lxor (rotr x 7) (rotr x 18)) (Z.shiftr x 3).
Definition ssig1 (x : Z) : Z := Z.lxor (Z.lxor (rotr x 17) (rotr x 19)) (Z.shiftr x 10).

(** The integer cube root, by bisection between [lo] and [hi]. *)
Fixpoint cube_root_between (steps : nat) (lo hi n : Z) : Z :=
  match steps with
  | O => lo
  | S steps' =>
      let mid := (lo + hi) / 2 in
      if mid * mid * mid <=? n then cube_root_between steps' mid hi n
      else cube_root_between steps' lo mid n
  end.

Definition first_primes : list Z :=
  [2; 3; 5; 7; 11; 13; 17; 19; 23; 29; 31; 37; 41; 43; 47; 53;
   59; 61; 67; 71; 73; 79; 83; 89; 97; 101; 103; 107; 109; 113; 127; 131;
   137; 139; 149; 151; 157; 163; 167; 173; 179; 181; 191; 193; 197; 199; 211; 223;
   227; 229; 233; 239; 241; 251; 257; 263; 269; 271; 277; 281; 283; 293; 307; 311].

(** The round constants: the first 32 bits of the fractional parts of the
    cube roots of the first 64 primes. *)
Definition round_constants : list Z :=
  Eval vm_compute in
    map (fun p => wrap32 (cube_root_between 40 0 (2 ^ 36) (p * 2 ^ 96))) first_primes.

(** The eight chaining words. *)
Record chain := Chain { wa : Z; wb : Z; wc : Z; wd : Z; we : Z; wf : Z; wg : Z; wh : Z }.

(** The first 32 bits of the fractional part of a square root. *)
Definition sqrt_fraction (p : Z) : Z := wrap32 (Z.sqrt (p * 2 ^ 64)).

(** The initial chaining value, from the first eight primes. *)
Definition initial_chain : chain :=
  Eval vm_compute in
    Chain (sqrt_fraction 2) (sqrt_fraction 3) (sqrt_fraction 5) (sqrt_fraction 7)
          (sqrt_fraction 11) (sqrt_fraction 13) (sqrt_fraction 17) (sqrt_fraction 19).

(** Big-endian bytes of a [n]-byte quantity. *)
Fixpoint be_bytes (n : nat) (x : Z) : bytes :=
  match n with
  | O => []
  | S n' => Z.land (Z.shiftr x (8 * Z.of_nat n')) 255 :: be_bytes n' x
  end.

(** Padding: a 1 bit, zeros up to 56 mod 64, then the bit length on 64 bits. *)
Definition pad (msg : bytes) : bytes :=
  let len := Z.of_nat (length msg) in
  msg ++ [128] ++ repeat 0 (Z.to_nat ((55 - len) mod 64)) ++ be_bytes 8 (8 * len).

Fixpoint be_words (bs : bytes) : list Z :=
  match bs with
  | b0 :: b1 :: b2 :: b3 :: rest =>
      Z.lor (Z.lor (Z.shiftl b0 24) (Z.shiftl b1 16)) (Z.lor (Z.shiftl b2 8) b3)
      :: be_words rest
  | _ => []
  end.

(** Message schedule, kept newest word first while it grows. *)
Fixpoint extend (n : nat) (rev_w : list Z) : list Z :=
  match n with
  | O => rev_w
  | S n' =>
      let w := add32 (add32 (ssig1 (nth 1 rev_w 0)) (nth 6 rev_w 0))
                     (add32 (ssig0 (nth 14 rev_w 0)) (nth 15 rev_w 0)) in
      extend n' (w :: rev_w)
  end.

Definition schedule (block : list Z) : list Z := rev (extend 48 (rev block)).

Definition round (s : chain) (kw : Z * Z) : chain :=
  let t1 := add32 (add32 (add32 (wh s) (bsig1 (we s))) (Ch (we s) (wf s) (wg s)))
                  (add32 (fst kw) (snd kw)) in
  let t2 := add32 (bsig0 (wa s)) (Maj (wa s) (wb s) (wc s)) in
  Chain (add32 t1 t2) (wa s) (wb s) (wc s) (add32 (wd s) t1) (we s) (wf s) (wg s).

Definition compress (s : chain) (block : list Z) : chain :=
  let r := fold_left round (combine round_constants (schedule block)) s in
  Chain (add32 (wa s) (wa r)) (add32 (wb s) (wb r)) (add32 (wc s) (wc r))
        (add32 (wd s) (wd r)) (add32 (we s) (we r)) (add32 (wf s) (wf r))
        (add32 (wg s) (wg r)) (add32 (wh s) (wh r)).

(** Sixteen-word blocks of the padded message, in order. *)
Fixpoint absorb (nblocks : nat) (ws : list Z) (s : chain) : chain :=
  match nblocks with
  | O => s
  | S n' => absorb n' (skipn 16 ws) (compress s (firstn 16 ws))
  end.

Definition chain_bytes (s : chain) : bytes :=
  flat_map (be_bytes 4) [wa s; wb s; wc s; wd s; we s; wf s; wg s; wh s].

Definition digest (msg : bytes) : bytes :=
  let ws := be_words (pad msg) in
  chain_bytes (absorb (Nat.div (length ws) 16) ws initial_chain).

Definition block_size : nat := 64.

(** [hmac.new(key, msg, hashlib.sha256).digest()]. *)
Definition hmac (key msg : bytes) : bytes :=
  let k0 := if Nat.ltb block_size (length key) then digest key else key in
  let k := k0 ++ repeat 0 (block_size - length k0) in
  let ipad := map (Z.lxor 0x36) k in
  let opad := map (Z.lxor 0x5c) k in
  digest (opad ++ digest (ipad ++ msg)).

End SHA256.

(** ** The client object and the signer *)

Record LavaBusinessAPI := { secret_key : string }.

(** [LavaBusinessAPI.generate_signature] *)
Definition generate_signature (self : LavaBusinessAPI) (s : string) : string :=
  let signature :=
    hex_of_bytes (SHA256.hmac (utf8_encode (secret_key self)) (utf8_encode s)) in
  signature.

(** ** Python values *)

#[warnings="-register-all"]
Inductive pyval :=
| PNone
| PBool (b : bool)
| PInt (n : Z)
| PFloat (f : spec_float)
| PStr (s : string)
| PList (l : list pyval)
| PTuple (l : list pyval)
| PDict (d : list (string * pyval)).

(** A [dict] with [str] keys, in insertion order. *)
Definition pydict := list (string * pyval).

Record datetime := {
  year : Z; month : Z; day : Z; hour : Z; minute : Z; second : Z; microsecond : Z
}.

(** ** Exceptions *)

Inductive exn :=
| APIError (description : string) (message code : pyval)
| CreateInvoiceException (description : string) (message code : pyval)
| InvalidParameterException (description : string) (message code : pyval)
| InvalidSignatureException (description : string) (message code : pyval)
| InvalidResponseException (args : option string)
| InvalidWebhookSignatureException (arg : string)
| KeyError (key : string)
| ValueError
| TypeError
| AttributeError
| OverflowError
| UnicodeEncodeError.

(** [isinstance(ex, CreateInvoiceException)]: the class and its two subclasses. *)
Definition is_CreateInvoiceException (ex : exn) : bool :=
  match ex with
  | CreateInvoiceException _ _ _ | InvalidParameterException _ _ _
  | InvalidSignatureException _ _ _ => true
  | _ => false
  end.

Definition is_InvalidParameterException (ex : exn) : bool :=
  match ex with InvalidParameterException _ _ _ => true | _ => false end.

Definition is_InvalidSignatureException (ex : exn) : bool :=
  match ex with InvalidSignatureException _ _ _ => true | _ => false end.

Definition is_KeyError (ex : exn) : bool :=
  match ex with KeyError _ => true | _ => false end.

(** [isinstance(ex, ValueError)]; [UnicodeEncodeError] is a subclass. *)
Definition is_ValueError (ex : exn) : bool :=
  match ex with ValueError | UnicodeEncodeError => true | _ => false end.

(** The error kinds the library documents for its callers. *)
Definition in_taxonomy (ex : exn) : bool :=
  match ex with
  | APIError _ _ _ | CreateInvoiceException _ _ _ | InvalidParameterException _ _ _
  | InvalidSignatureException _ _ _ | InvalidResponseException _
  | InvalidWebhookSignatureException _ => true
  | KeyError _ | ValueError | TypeError | AttributeError | OverflowError
  | UnicodeEncodeError => false
  end.

(** The [code] attribute of the [APIError] family. *)
Definition exn_code (ex : exn) : option pyval :=
  match ex with
  | APIError _ _ c | CreateInvoiceException _ _ c | InvalidParameterException _ _ c
  | InvalidSignatureException _ _ c => Some c
  | _ => None
  end.

(** ** Results of code that may raise *)

Inductive result (A : Type) :=
| Return (a : A)
| Raise (ex : exn).
Arguments Return {A} a.
Arguments Raise {A} ex.

Definition bind {A B} (m : result A) (k : A -> result B) : result B :=
  match m with
  | Return a => k a
  | Raise ex => Raise ex
  end.

(** [try: body  except ...: handler ex]; a handler that does not match
    re-raises. *)
Definition try_except {A} (body : result A) (handler : exn -> result A) : result A :=
  match body with
  | Return a => Return a
  | Raise ex => handler ex
  end.

Declare Scope py_scope.
Delimit Scope py_scope with py.
Notation "x <- m ;; k" := (bind m (fun x => k))
  (at level 100, m at next level, right associativity) : py_scope.
Open Scope py_scope.

(** ** Built-in operations on values *)

Fixpoint assoc (k : string) (d : pydict) : option pyval :=
  match d with
  | [] => None
  | (k', v) :: d' => if String.eqb k k' then Some v else assoc k d'
  end.

(** [d[k]] on a dict. *)
Definition dict_getitem (d : pydict) (k : string) : result pyval :=
  match assoc k d with
  | Some v => Return v
  | None => Raise (KeyError k)
  end.

(** [d.get(k, default)] on a dict. *)
Definition dict_get (d : pydict) (k : string) (default : pyval) : pyval :=
  match assoc k d with
  | Some v => v
  | None => default
  end.

(** [d[k] = v] on a dict: an existing key keeps its place. *)
Fixpoint dict_setitem (d : pydict) (k : string) (v : pyval) : pydict :=
  match d with
  | [] => [(k, v)]
  | (k', v') :: d' =>
      if String.eqb k k' then (k', v) :: d' else (k', v') :: dict_setitem d' k v
  end.

Definition dict_keys (d : pydict) : list string := map fst d.

(** [k in d.keys()] *)
Definition dict_contains (d : pydict) (k : string) : bool :=
  existsb (String.eqb k) (dict_keys d).

(** [o[k]] with a [str] subscript on an arbitrary object: only a dict
    accepts it. *)
Definition py_getitem (o : pyval) (k : string) : result pyval :=
  match o with
  | PDict d => dict_getitem d k
  | _ => Raise TypeError
  end.

(** [o.get(k, default)] on an arbitrary object: only a dict has [get]. *)
Definition py_get (o : pyval) (k : string) (default : pyval) : result pyval :=
  match o with
  | PDict d => Return (dict_get d k default)
  | _ => Raise AttributeError
  end.

(** [o.keys()] *)
Definition py_keys (o : pyval) : result (list string) :=
  match o with
  | PDict d => Return (dict_keys d)
  | _ => Raise AttributeError
  end.

Definition isinstance_dict (o : pyval) : bool :=
  match o with PDict _ => true | _ => false end.

Definition is_none (o : pyval) : bool :=
  match o with PNone => true | _ => false end.

(** [float(n)] for an int that fits: round to nearest even. *)
Definition float_of_Z (n : Z) : spec_float := binary_normalize 53 1024 n 0 false.

(** [o == n] for an int literal [n] (exact for the status codes compared
    in this module; a float is compared through [float_of_Z]). *)
Definition py_eq_int (o : pyval) (n : Z) : bool :=
  match o with
  | PInt m => m =? n
  | PBool b => Z.b2z b =? n
  | PFloat f => SFeqb f (float_of_Z n)
  | _ => false
  end.

(** [o == s] for a str literal [s]. *)
Definition py_eq_str (o : pyval) (s : string) : bool :=
  match o with
  | PStr t => String.eqb t s
  | _ => false
  end.

(** [needle in hay] for two strs. *)
Fixpoint contains_text (needle hay : string) : bool :=
  String.prefix needle hay
  || match hay with
     | EmptyString => false
     | String _ hay' => contains_text needle hay'
     end.

(** [sep.join(parts)] *)
Fixpoint join (sep : string) (parts : list string) : string :=
  match parts with
  | [] => ""
  | [p] => p
  | p :: rest => p +:+ sep +:+ join sep rest
  end.

Definition digit_char (n : Z) : ascii := ascii_of_nat (48 + Z.to_nat (n mod 10)).

Fixpoint decimal_digits (fuel : nat) (n : Z) (acc : string) : string :=
  match fuel with
  | O => acc
  | S fuel' =>
      let acc' := String (digit_char n) acc in
      if n / 10 =? 0 then acc' else decimal_digits fuel' (n / 10) acc'
  end.

(** [str(n)] for an int. *)
Definition str_of_int (n : Z) : string :=
  if n <? 0 then "-" +:+ decimal_digits (S (Z.to_nat (Z.log2 (- n)))) (- n) ""
  else decimal_digits (S (Z.to_nat (Z.log2 n))) n "".

Fixpoint zeros (n : nat) : string :=
  match n with O => "" | S n' => String "0" (zeros n') end.

(** [format(n, '0<width>d')]: sign first, then zeros up to the width. *)
Definition format_0d (width : nat) (n : Z) : string :=
  if n <? 0 then
    let ds := decimal_digits (S (Z.to_nat (Z.log2 (- n)))) (- n) "" in
    "-" +:+ zeros (width - 1 - String.length ds) +:+ ds
  else
    let ds := str_of_int n in
    zeros (width - String.length ds) +:+ ds.

(** The integer part of a float, towards zero. *)
Definition trunc_float (f : spec_float) : result Z :=
  match f with
  | S754_zero _ => Return 0
  | S754_finite s m e =>
      let mag := Z.shiftl (Z.pos m) e in
      Return (if s then - mag else mag)
  | S754_infinity _ => Raise OverflowError
  | S754_nan => Raise ValueError
  end.

(** [str.lower()] on U+0000..U+00FF: the ASCII capitals and the Latin-1
    capitals U+00C0..U+00DE other than the multiplication sign. *)
Definition lower_char (c : ascii) : ascii :=
  let n := code_point c in
  if ((65 <=? n) && (n <=? 90)) || ((192 <=? n) && (n <=? 222) && negb (n =? 215))
  then ascii_of_N (Z.to_N (n + 32))
  else c.

Fixpoint str_lower (s : string) : string :=
  match s with
  | EmptyString => EmptyString
  | String c s' => String (lower_char c) (str_lower s')
  end.

(** [now.strftime('%Y%m%d')] and [now.strftime('%H%M%S')].  [%Y] is written
    with four digits, which is what every platform prints from year 1000 on. *)
Definition strftime_Ymd (now : datetime) : string :=
  format_0d 4 (year now) +:+ format_0d 2 (month now) +:+ format_0d 2 (day now).

Definition strftime_HMS (now : datetime) : string :=
  format_0d 2 (hour now) +:+ format_0d 2 (minute now) +:+ format_0d 2 (second now).

(** ** Result types *)

Module SuccessfulInvoiceInfo.
Record t := {
  invoice_id : pyval;
  order_id : pyval;
  status : pyval;
  payed : bool;
  pay_time : datetime;
  amount : spec_float;
  credited : spec_float;
  custom_field : pyval
}.
End SuccessfulInvoiceInfo.

Module InvoiceInfo.
Record t := {
  invoice_id : pyval;
  amount : pyval;
  expired : pyval;
  status : pyval;
  shop_id : pyval;
  merchant_name : pyval;
  url : pyval;
  comment : pyval;
  include_service : pyval;
  exclude_service : pyval
}.
End InvoiceInfo.

(** ** Dict objects passed by reference *)

Definition loc := positive.

(** The dict objects alive at some point, by identity. *)
Abbreviation store := (gmap loc pydict).

(** ** Library routines outside the repository *)

Class PyRuntime := {
  (** [int(s)] for a str; [None] is [ValueError]. *)
  int_of_str : string -> option Z;
  (** [float(s)] for a str; [None] is [ValueError]. *)
  float_of_str : string -> option spec_float;
  (** [str(o)] for a float or a container. *)
  str_of_other : pyval -> string;
  (** [datetime.datetime.strptime(s, fmt)] for a str; [None] is [ValueError]. *)
  strptime : string -> string -> option datetime;
  (** The state of the shared [random] generator and [Random._randbelow]. *)
  rng : Type;
  randbelow : Z -> rng -> Z * rng;
  randbelow_range : forall n g, 0 < n -> 0 <= fst (randbelow n g) < n
}.

(** A small runtime for closed examples: [int] accepts plain decimal
    integers, [float] plain decimal literals, [strptime] accepts the nineteen-character layout
    [YYYY-MM-DD HH:MM:SS], and the generator is a linear congruence. *)
Definition digit_value (c : ascii) : option Z :=
  let n := code_point c in
  if (48 <=? n) && (n <=? 57) then Some (n - 48) else None.

Fixpoint parse_digits (s : string) (acc : Z) : option Z :=
  match s with
  | EmptyString => Some acc
  | String c s' =>
      match digit_value c with
      | Some d => parse_digits s' (10 * acc + d)
      | None => None
      end
  end.

Definition parse_int (s : string) : option Z :=
  match s with
  | EmptyString => None
  | String "-" EmptyString => None
  | String "-" s' => option_map Z.opp (parse_digits s' 0)
  | _ => parse_digits s 0
  end.

(** The text before and after the first ".", if there is one. *)
Fixpoint split_point (s : string) : string * option string :=
  match s with
  | EmptyString => (EmptyString, None)
  | String "." s' => (EmptyString, Some s')
  | String c s' => let (whole, frac) := split_point s' in (String c whole, frac)
  end.

(** Decimal literals [ddd] and [ddd.ddd], with an optional minus sign: the
    quotient of two integers, rounded once by the division. *)
Definition parse_float (s : string) : option spec_float :=
  match split_point s with
  | (whole, None) => option_map float_of_Z (parse_int whole)
  | (whole, Some frac) =>
      match parse_int whole, frac with
      | Some _, EmptyString => None
      | Some w, _ =>
          match parse_digits frac 0 with
          | Some f =>
              let scale := 10 ^ Z.of_nat (String.length frac) in
              let num := if String.prefix "-" whole then w * scale - f else w * scale + f in
              Some (SFdiv 53 1024 (float_of_Z num) (float_of_Z scale))
          | None => None
          end
      | None, _ => None
      end
  end.

Definition in_range (lo hi x : Z) : bool := (lo <=? x) && (x <=? hi).

Definition parse_timestamp (s fmt : string) : option datetime :=
  if negb (String.eqb fmt "%Y-%m-%d %H:%M:%S") then None
  else if negb (Nat.eqb (String.length s) 19) then None
  else if negb (String.eqb (substring 4 1 s) "-" && String.eqb (substring 7 1 s) "-"
                && String.eqb (substring 10 1 s) " " && String.eqb (substring 13 1 s) ":"
                && String.eqb (substring 16 1 s) ":") then None
  else
    match parse_digits (substring 0 4 s) 0, parse_digits (substring 5 2 s) 0,
          parse_digits (substring 8 2 s) 0, parse_digits (substring 11 2 s) 0,
          parse_digits (substring 14 2 s) 0, parse_digits (substring 17 2 s) 0 with
    | Some y, Some mo, Some d, Some h, Some mi, Some sec =>
        if in_range 1 9999 y && in_range 1 12 mo && in_range 1 31 d
           && in_range 0 23 h && in_range 0 59 mi && in_range 0 59 sec
        then Some {| year := y; month := mo; day := d; hour := h; minute := mi;
                     second := sec; microsecond := 0 |}
        else None
    | _, _, _, _, _, _ => None
    end.

Definition congruential_randbelow (n : Z) (g : Z) : Z * Z :=
  (g mod n, (1103515245 * g + 12345) mod 2147483648).

Definition reference_runtime : PyRuntime := {|
  int_of_str := parse_int;
  float_of_str := parse_float;
  str_of_other := fun _ => "<object>";
  strptime := parse_timestamp;
  rng := Z;
  randbelow := congruential_randbelow;
  randbelow_range := fun n g Hn => Z.mod_pos_bound g n Hn
|}.

(** Values for closed examples. *)
Definition example_api : LavaBusinessAPI := {| secret_key := "secret" |}.

Definition example_now : datetime :=
  {| year := 2026; month := 11; day := 3; hour := 14; minute := 33; second := 7;
     microsecond := 0 |}.

(** A store with a payload at reference 1 and headers at reference 2. *)
Definition example_store (data hdrs : pydict) : store :=
  <[1%positive := data]> (<[2%positive := hdrs]> ∅).

Definition example_payload : pydict :=
  [("invoice_id", PStr "1"); ("status", PStr "success");
   ("amount", PStr "10.0"); ("credited", PStr "9.5")].

Definition example_headers : pydict := [("AUTHORIZATION", PStr "anything")].

(** ** Text in full Unicode *)

(** [P] holds of the [2 ^ k] integers from [base] on. *)
Fixpoint all_below (k : nat) (base : Z) (P : Z -> bool) : bool :=
  match k with
  | O => P base
  | S k' => all_below k' base P && all_below k' (base + 2 ^ Z.of_nat k') P
  end.

Module Text.

(** A Python [str] in full: its code points, each in U+0000..U+10FFFF. *)
Definition str := list Z.

Definition is_str (s : str) : bool := forallb (in_range 0 0x10FFFF) s.

Definition is_surrogate (n : Z) : bool := in_range 0xD800 0xDFFF n.

(** A str without lone surrogates. *)
Definition encodable (s : str) : bool :=
  forallb (fun n => in_range 0 0x10FFFF n && negb (is_surrogate n)) s.

(** The code points of a str of the narrower model. *)
Definition of_string (s : string) : str := map code_point (list_ascii_of_string s).

(** [str.encode()] / [bytes(s, 'UTF-8')] on one code point: one to four
    bytes; a surrogate has no encoding. *)
Definition utf8_char (n : Z) : result bytes :=
  if n <? 0x80 then Return [n]
  else if n <? 0x800 then
    Return [Z.lor 0xC0 (Z.shiftr n 6); Z.lor 0x80 (Z.land n 0x3F)]
  else if is_surrogate n then Raise UnicodeEncodeError
  else if n <? 0x10000 then
    Return [Z.lor 0xE0 (Z.shiftr n 12);
            Z.lor 0x80 (Z.land (Z.shiftr n 6) 0x3F);
            Z.lor 0x80 (Z.land n 0x3F)]
  else
    Return [Z.lor 0xF0 (Z.shiftr n 18);
            Z.lor 0x80 (Z.land (Z.shiftr n 12) 0x3F);
            Z.lor 0x80 (Z.land (Z.shiftr n 6) 0x3F);
            Z.lor 0x80 (Z.land n 0x3F)].

Fixpoint utf8_encode (s : str) : result bytes :=
  match s with
  | [] => Return []
  | n :: s' =>
      b <- utf8_char n ;;
      bs <- utf8_encode s' ;;
      Return (b ++ bs)
  end.

(** The code points a byte sequence spells, read by the lead byte of each
    group; it undoes [utf8_encode] and does not police ill-formed input. *)
Fixpoint utf8_read (bs : bytes) : option str :=
  match bs with
  | [] => Some []
  | b0 :: r0 =>
      if b0 <? 0x80 then option_map (cons b0) (utf8_read r0)
      else if b0 <? 0xE0 then
        match r0 with
        | b1 :: r1 =>
            option_map (cons ((b0 - 0xC0) * 64 + (b1 - 0x80))) (utf8_read r1)
        | _ => None
        end
      else if b0 <? 0xF0 then
        match r0 with
        | b1 :: b2 :: r2 =>
            option_map (cons (((b0 - 0xE0) * 64 + (b1 - 0x80)) * 64 + (b2 - 0x80)))
              (utf8_read r2)
        | _ => None
        end
      else
        match r0 with
        | b1 :: b2 :: b3 :: r3 =>
            option_map
              (cons ((((b0 - 0xF0) * 64 + (b1 - 0x80)) * 64 + (b2 - 0x80)) * 64
                     + (b3 - 0x80)))
              (utf8_read r3)
        | _ => None
        end
  end.

(** The encoding of one code point is made of bytes and, read back by
    hand, gives the code point. *)
Definition char_round_trip (n : Z) : bool :=
  if in_range 0 0x10FFFF n && negb (is_surrogate n) then
    match utf8_char n with
    | Return b =>
        forallb (in_range 0 255) b
        && match b with
           | [b0] => (b0 <? 0x80) && (b0 =? n)
           | [b0; b1] =>
               negb (b0 <? 0x80) && (b0 <? 0xE0)
               && ((b0 - 0xC0) * 64 + (b1 - 0x80) =? n)
           | [b0; b1; b2] =>
               negb (b0 <? 0x80) && negb (b0 <? 0xE0) && (b0 <? 0xF0)
               && (((b0 - 0xE0) * 64 + (b1 - 0x80)) * 64 + (b2 - 0x80) =? n)
           | [b0; b1; b2; b3] =>
               negb (b0 <? 0x80) && negb (b0 <? 0xE0) && negb (b0 <? 0xF0)
               && ((((b0 - 0xF0) * 64 + (b1 - 0x80)) * 64 + (b2 - 0x80)) * 64
                   + (b3 - 0x80) =? n)
           | _ => false
           end
    | Raise _ => false
    end
  else true.

(** [LavaBusinessAPI.generate_signature] on strs in full: the key is encoded
    first, then the string. *)
Definition generate_signature (secret_key s : str) : result string :=
  key <- utf8_encode secret_key ;;
  msg <- utf8_encode s ;;
  let signature := hex_of_bytes (SHA256.hmac key msg) in
  Return signature.

End Text.

(** Signatures computed by CPython's [hmac] and [hashlib] for a key and a
    string: RFC 4231 test cases 1 and 2, the empty key and string, strs
    with characters of two, three and four bytes, a key longer than one
    block with a string of several blocks, and the ends of each encoded
    length. *)
Definition known_answers : list (Text.str * Text.str * string) :=
  [ (repeat 11 20, Text.of_string "Hi There",
     "b0344c61d8db38535ca8afceaf0bf12b881dc200c9833da726e9376c2e32cff7");
    (Text.of_string "Jefe", Text.of_string "what do ya want for nothing?",
     "5bdcc146bf60754e6a042426089575c75a003f089d2739839dec58b964ec3843");
    ([], [],
     "b613679a0814d9ec772f95d778c35fc5ff1697c493715653c6c712144292c5ad");
    ([0x43A; 0x43B; 0x44E; 0x447], [0x20AC; 0x31; 0x30; 0x20; 0x1F600; 0x20; 0xE9],
     "523ce717b651ccf27bfdeb4a086a1f26843f0ac2dd7a9fa83e7c127437b0d381");
    (Text.of_string
       "0123456789012345678901234567890123456789012345678901234567890123456789",
     Text.of_string
       "orderId=20261103-0042-143307-6027&shopId=shop&sum=10&comment=a fairly long remark that crosses a block",
     "2c800413874e1b368f6fedcc3113cc14e3c1f217a7037d8558dec1bb1aa06479");
    ([0xFFFF; 0x10FFFF; 0x800; 0x7FF; 0x80; 0x7F], [0xD7FF; 0x10000],
     "e1ddd3ffcb20cda3f1c5b49ea4207e8f8676bc4616adc63e9c774deeb9da00e0") ].

(** ** The order-id pattern [\d{8}-\d{4}-\d{6}-\d{4}] *)

Definition is_digit (c : ascii) : bool := in_range 48 57 (code_point c).

(** [s] is [n] decimal digits. *)
Definition digits_exactly (n : nat) (s : string) : bool :=
  Nat.eqb (String.length s) n && forallb is_digit (list_ascii_of_string s).

(** [n] digits at the front of [s]; what follows them. *)
Fixpoint match_digits (n : nat) (s : string) : option string :=
  match n with
  | O => Some s
  | S n' =>
      match s with
      | String c s' => if is_digit c then match_digits n' s' else None
      | EmptyString => None
      end
  end.

Definition match_dash (s : string) : option string :=
  match s with
  | String "-" s' => Some s'
  | _ => None
  end.

Definition matches_order_id_pattern (s : string) : bool :=
  match match_digits 8 s with
  | Some s1 =>
    match match_dash s1 with
    | Some s2 =>
      match match_digits 4 s2 with
      | Some s3 =>
        match match_dash s3 with
        | Some s4 =>
          match match_digits 6 s4 with
          | Some s5 =>
            match match_dash s5 with
            | Some s6 =>
              match match_digits 4 s6 with
              | Some EmptyString => true
              | _ => false
              end
            | None => false
            end
          | None => false
          end
        | None => false
        end
      | None => false
      end
    | None => false
    end
  | None => false
  end.

(** A clock reading [datetime.datetime.now()] can return, from year 1000 on. *)
Definition clock_reading (now : datetime) : Prop :=
  1000 <= year now <= 9999 /\ 1 <= month now <= 12 /\ 1 <= day now <= 31 /\
  0 <= hour now <= 23 /\ 0 <= minute now <= 59 /\ 0 <= second now <= 59.


Section Embedding.
Context {rt : PyRuntime}.

(** [str(o)] *)
Definition py_str (o : pyval) : string :=
  match o with
  | PStr s => s
  | PNone => "None"
  | PBool true => "True"
  | PBool false => "False"
  | PInt n => str_of_int n
  | _ => str_of_other o
  end.

(** [int(o)] *)
Definition py_int (o : pyval) : result Z :=
  match o with
  | PInt n => Return n
  | PBool b => Return (Z.b2z b)
  | PFloat f => trunc_float f
  | PStr s => match int_of_str s with Some n => Return n | None => Raise ValueError end
  | _ => Raise TypeError
  end.

(** [float(o)] *)
Definition py_float (o : pyval) : result spec_float :=
  match o with
  | PFloat f => Return f
  | PInt n =>
      match float_of_Z n with
      | S754_infinity _ => Raise OverflowError
      | f => Return f
      end
  | PBool b => Return (float_of_Z (Z.b2z b))
  | PStr s => match float_of_str s with Some f => Return f | None => Raise ValueError end
  | _ => Raise TypeError
  end.

(** [datetime.datetime.strptime(o, fmt)]: the first argument must be a str. *)
Definition py_strptime (o : pyval) (fmt : string) : result datetime :=
  match o with
  | PStr s => match strptime s fmt with Some t => Return t | None => Raise ValueError end
  | _ => Raise TypeError
  end.

(** [random.randint(a, b)]: [a + _randbelow(b - a + 1)]. *)
Definition randint (a b : Z) (g : rng) : Z * rng :=
  let (r, g') := randbelow (b - a + 1) g in (a + r, g').


(** ** Order ids *)

(** [LavaBusinessAPI.generate_random_order_id]; [now] is the value
    [datetime.datetime.now()] returns, [g] the state of the generator. *)
Definition generate_random_order_id (now : datetime) (g : rng) : string * rng :=
  let date := strftime_Ymd now in
  let (r1, g1) := randint 0 9999 g in
  let time := strftime_HMS now in
  let (r2, g2) := randint 0 9999 g1 in
  let order_id :=
    date +:+ "-" +:+ format_0d 4 r1 +:+ "-" +:+ time +:+ "-" +:+ format_0d 4 r2 in
  (order_id, g2).

(** ** Remote operations, from the decoded response on *)

(** [LavaBusinessAPI.create_invoice], lines 187-230: [response_json] is the
    value of [await response.json()]. *)
Definition create_invoice (response_json : pyval) : result InvoiceInfo.t :=
  try_except
    (request_status <- py_get response_json "status" (PInt 0) ;;
     if py_eq_int request_status 200 then
       invoice_data <- py_get response_json "data" PNone ;;
       if is_none invoice_data then
         Raise (InvalidResponseException (Some "No 'data' field"))
       else
         try_except
           (id <- py_getitem invoice_data "id" ;;
            amount <- py_getitem invoice_data "amount" ;;
            expired <- py_getitem invoice_data "expired" ;;
            status <- py_getitem invoice_data "status" ;;
            shop_id <- py_getitem invoice_data "shop_id" ;;
            merchant_name <- py_get invoice_data "merchantName" (PStr "Merchant") ;;
            url <- py_getitem invoice_data "url" ;;
            comment <- py_get invoice_data "comment" (PStr "Comment") ;;
            include_service <- py_get invoice_data "include_service" PNone ;;
            exclude_service <- py_get invoice_data "exclude_service" PNone ;;
            Return {| InvoiceInfo.invoice_id := id;
                      InvoiceInfo.amount := amount;
                      InvoiceInfo.expired := expired;
                      InvoiceInfo.status := status;
                      InvoiceInfo.shop_id := shop_id;
                      InvoiceInfo.merchant_name := merchant_name;
                      InvoiceInfo.url := url;
                      InvoiceInfo.comment := comment;
                      InvoiceInfo.include_service :=
                        if negb (is_none include_service) then include_service else PList [];
                      InvoiceInfo.exclude_service :=
                        if negb (is_none exclude_service) then exclude_service else PList [] |})
           (fun ex =>
              if is_KeyError ex then
                Raise (InvalidResponseException (Some "Error while reading data from dictionary"))
              else Raise ex)
     else if py_eq_int request_status 422 then
       error <- py_get response_json "error" (PStr "") ;;
       if isinstance_dict error then
         keys <- py_keys error ;;
         Raise (InvalidParameterException
                  ("Invalid parameters: " +:+ join ", " keys +:+ "; Code: "
                   +:+ py_str request_status +:+ "; Message: " +:+ py_str error)
                  (PStr (py_str error)) request_status)
       else
         Raise (InvalidResponseException (Some ("Invalid 'error' field: " +:+ py_str error)))
     else if py_eq_int request_status 401 then
       error <- py_get response_json "error" (PStr "") ;;
       Raise (InvalidSignatureException
                ("Invalid signature. Code: " +:+ py_str request_status
                 +:+ "; Message: " +:+ py_str error)
                error request_status)
     else
       error <- py_get response_json "error" (PStr "") ;;
       Raise (CreateInvoiceException
                ("Unexpected error. Code: " +:+ py_str request_status
                 +:+ "; Message: " +:+ py_str error)
                error request_status))
    (fun ex =>
       if is_InvalidParameterException ex || is_InvalidSignatureException ex
          || is_CreateInvoiceException ex
       then Raise ex
       else Raise (InvalidResponseException None)).

(** [LavaBusinessAPI.get_balance], lines 290-306. *)
Definition get_balance (response_json : pyval) : result pyval :=
  status <- py_get response_json "status" (PStr "error") ;;
  if py_eq_int status 422 then
    error <- py_get response_json "error" (PDict []) ;;
    keys <- py_keys error ;;
    status' <- py_get response_json "status" PNone ;;
    code <- py_int status' ;;
    error' <- py_get response_json "error" PNone ;;
    Raise (InvalidParameterException
             ("Invalid parameters: " +:+ join ", " keys)
             (PStr (py_str error')) (PInt code))
  else if negb (py_eq_int status 200) then
    error <- py_get response_json "error" PNone ;;
    status' <- py_get response_json "status" PNone ;;
    code <- py_int status' ;;
    Raise (APIError ("API error: " +:+ py_str error) (PStr (py_str error)) (PInt code))
  else
    data <- try_except (py_getitem response_json "data")
              (fun ex =>
                 if is_KeyError ex then Raise (InvalidResponseException (Some "No 'data' field"))
                 else Raise ex) ;;
    balance <- try_except (py_getitem data "balance")
                 (fun ex =>
                    if is_KeyError ex then
                      Raise (InvalidResponseException (Some "No 'balance' field"))
                    else Raise ex) ;;
    Return balance.

(** [LavaBusinessAPI.payoff], lines 336-352. *)
Definition payoff (response_json : pyval) : result string :=
  status <- py_get response_json "status" (PStr "error") ;;
  if py_eq_int status 422 then
    error <- py_get response_json "error" (PDict []) ;;
    keys <- py_keys error ;;
    error' <- py_get response_json "error" (PStr "") ;;
    status' <- py_get response_json "status" PNone ;;
    code <- py_int status' ;;
    error'' <- py_get response_json "error" PNone ;;
    Raise (InvalidParameterException
             ("Invalid parameters: " +:+ join ", " keys +:+ "; Message: " +:+ py_str error')
             (PStr (py_str error'')) (PInt code))
  else if negb (py_eq_int status 200) then
    error <- py_get response_json "error" PNone ;;
    status' <- py_get response_json "status" PNone ;;
    code <- py_int status' ;;
    Raise (APIError ("API error: " +:+ py_str error) (PStr (py_str error)) (PInt code))
  else
    data <- try_except (py_getitem response_json "data")
              (fun ex =>
                 if is_KeyError ex then Raise (InvalidResponseException (Some "No 'data' field"))
                 else Raise ex) ;;
    payoff_id <- try_except
                   (v <- py_getitem data "payoff_id" ;; Return (py_str v))
                   (fun ex =>
                      if is_KeyError ex then
                        Raise (InvalidResponseException (Some "No 'payoff' field"))
                      else Raise ex) ;;
    Return payoff_id.

(** ** Code over the store *)

(** Code that reads and writes dict objects and may raise. *)
Definition proc (A : Type) : Type := store -> store * result A.

Definition ret {A} (a : A) : proc A := fun σ => (σ, Return a).

Definition raise {A} (ex : exn) : proc A := fun σ => (σ, Raise ex).

Definition lift {A} (r : result A) : proc A := fun σ => (σ, r).

Definition bind_proc {A B} (m : proc A) (k : A -> proc B) : proc B :=
  fun σ =>
    match m σ with
    | (σ', Return a) => k a σ'
    | (σ', Raise ex) => (σ', Raise ex)
    end.

Definition try_proc {A} (body : proc A) (handler : exn -> proc A) : proc A :=
  fun σ =>
    match body σ with
    | (σ', Return a) => (σ', Return a)
    | (σ', Raise ex) => handler ex σ'
    end.

Notation "x <~ m ;; k" := (bind_proc m (fun x => k))
  (at level 100, m at next level, right associativity) : py_scope.

(** The current contents of the dict object at [l].  Every reference the
    code holds is to a live object; the other case is there for totality. *)
Definition deref (l : loc) : proc pydict :=
  fun σ => (σ, match σ !! l with Some d => Return d | None => Raise AttributeError end).

(** A new empty dict object. *)
Definition new_dict : proc loc :=
  fun σ => let l := fresh (dom σ) in (<[l := []]> σ, Return l).

(** [d[k] = v] on the object at [l]. *)
Definition setitem (l : loc) (k : string) (v : pyval) : proc unit :=
  fun σ => (alter (fun d => dict_setitem d k v) l σ, Return tt).

(** [d.items()] *)
Definition items (l : loc) : proc (list (string * pyval)) := deref l.

(** [d[k]] *)
Definition getitem (l : loc) (k : string) : proc pyval :=
  d <~ deref l ;; lift (dict_getitem d k).

(** [d.get(k, default)] *)
Definition get (l : loc) (k : string) (default : pyval) : proc pyval :=
  d <~ deref l ;; ret (dict_get d k default).

(** [k in d.keys()] *)
Definition contains (l : loc) (k : string) : proc bool :=
  d <~ deref l ;; ret (dict_contains d k).

Fixpoint for_each {A} (xs : list A) (body : A -> proc unit) : proc unit :=
  match xs with
  | [] => ret tt
  | x :: xs' => _ <~ body x ;; for_each xs' body
  end.

(** ** The webhook handler *)

(** [LavaBusinessAPI.handle_webhook]; [received_data] and [headers] are the
    references the caller passes, [now] is what [datetime.datetime.now()]
    returns when it is called. *)
Definition handle_webhook (self : LavaBusinessAPI) (received_data headers : loc)
    (now : datetime) : proc SuccessfulInvoiceInfo.t :=
  (* headers = {k.lower(): v for k, v in headers.items()} *)
  kvs <~ items headers ;;
  lowered <~ new_dict ;;
  _ <~ for_each kvs (fun kv => setitem lowered (str_lower (fst kv)) (snd kv)) ;;
  let headers := lowered in
  has_auth <~ contains headers "authorization" ;;
  if negb has_auth then
    raise (InvalidWebhookSignatureException "No 'Authorization' header")
  else
    successful_invoice_info <~
      try_proc
        (pay_time <~
           try_proc
             (payed <~ getitem received_data "payed" ;;
              lift (py_strptime payed "%Y-%m-%d %H:%M:%S"))
             (fun ex => if is_ValueError ex || is_KeyError ex then ret now else raise ex) ;;
         invoice_id <~ getitem received_data "invoice_id" ;;
         order_id <~ get received_data "order_id" (PStr "") ;;
         status <~ getitem received_data "status" ;;
         status' <~ getitem received_data "status" ;;
         amount <~ (a <~ getitem received_data "amount" ;; lift (py_float a)) ;;
         credited <~ (c <~ getitem received_data "credited" ;; lift (py_float c)) ;;
         custom_fields <~ get received_data "custom_field" PNone ;;
         ret {| SuccessfulInvoiceInfo.invoice_id := invoice_id;
                SuccessfulInvoiceInfo.order_id := order_id;
                SuccessfulInvoiceInfo.status := status;
                SuccessfulInvoiceInfo.payed := py_eq_str status' "success";
                SuccessfulInvoiceInfo.pay_time := pay_time;
                SuccessfulInvoiceInfo.amount := amount;
                SuccessfulInvoiceInfo.credited := credited;
                SuccessfulInvoiceInfo.custom_field :=
                  (* (custom_fields := ..., None) is a tuple *)
                  if negb (is_none (PTuple [custom_fields; PNone]))
                  then custom_fields else PStr "" |})
        (fun ex =>
           if is_KeyError ex then
             raise (InvalidResponseException (Some "Error while reading data from dictionary"))
           else raise ex) ;;
    ret successful_invoice_info.

(** The dict the comprehension [{k.lower(): v for k, v in headers.items()}]
    builds from the entries [kvs]. *)
Definition lowered_headers (kvs : pydict) : pydict :=
  fold_left (fun d kv => dict_setitem d (str_lower (fst kv)) (snd kv)) kvs [].



(** Lines 253-276 of [handle_webhook] on a dict whose contents are [data]:
    the same reads, on the value instead of through the store;
    [handle_webhook_run] relates the two. *)
Definition webhook_outcome (data : pydict) (now : datetime)
    : result SuccessfulInvoiceInfo.t :=
  try_except
    (pay_time <-
       try_except
         (payed <- dict_getitem data "payed" ;; py_strptime payed "%Y-%m-%d %H:%M:%S")
         (fun ex => if is_ValueError ex || is_KeyError ex then Return now else Raise ex) ;;
     invoice_id <- dict_getitem data "invoice_id" ;;
     order_id <- Return (dict_get data "order_id" (PStr "")) ;;
     status <- dict_getitem data "status" ;;
     status' <- dict_getitem data "status" ;;
     amount <- (a <- dict_getitem data "amount" ;; py_float a) ;;
     credited <- (c <- dict_getitem data "credited" ;; py_float c) ;;
     custom_fields <- Return (dict_get data "custom_field" PNone) ;;
     Return {| SuccessfulInvoiceInfo.invoice_id := invoice_id;
               SuccessfulInvoiceInfo.order_id := order_id;
               SuccessfulInvoiceInfo.status := status;
               SuccessfulInvoiceInfo.payed := py_eq_str status' "success";
               SuccessfulInvoiceInfo.pay_time := pay_time;
               SuccessfulInvoiceInfo.amount := amount;
               SuccessfulInvoiceInfo.credited := credited;
               SuccessfulInvoiceInfo.custom_field :=
                 if negb (is_none (PTuple [custom_fields; PNone]))
                 then custom_fields else PStr "" |})
    (fun ex =>
       if is_KeyError ex then
         Raise (InvalidResponseException (Some "Error while reading data from dictionary"))
       else Raise ex).

(** The built-in errors the payload block of [handle_webhook] meets. *)
Definition payload_error (ex : exn) : Prop :=
  (exists k, ex = KeyError k) \/ ex = ValueError \/ ex = TypeError \/ ex = OverflowError.

(** [m] leaves the store [σ] as it is and has outcome [r]. *)
Definition reads {A} (σ : store) (m : proc A) (r : result A) : Prop := m σ = (σ, r).

(** ** Request bodies *)

(** The characters [json.dumps] writes as they are: space to tilde, other
    than the quote and the backslash. *)
Definition json_plain (c : ascii) : bool :=
  let n := code_point c in
  in_range 32 126 n && negb (n =? 34) && negb (n =? 92).

Definition backslash : ascii := ascii_of_nat 92.
Definition double_quote : ascii := ascii_of_nat 34.

(** One character of a JSON string literal, as [ensure_ascii] writes it. *)
Definition json_escape_char (c : ascii) : string :=
  let n := code_point c in
  if json_plain c then String c EmptyString
  else if n =? 34 then String backslash (String double_quote EmptyString)
  else if n =? 92 then String backslash (String backslash EmptyString)
  else if n =? 10 then String backslash "n"
  else if n =? 13 then String backslash "r"
  else if n =? 9 then String backslash "t"
  else if n =? 8 then String backslash "b"
  else if n =? 12 then String backslash "f"
  else String backslash
         (String "u" (String "0" (String "0"
            (String (hex_digit (n / 16)) (String (hex_digit n) EmptyString))))).

Fixpoint json_escape (s : string) : string :=
  match s with
  | EmptyString => EmptyString
  | String c s' => json_escape_char c +:+ json_escape s'
  end.

Definition json_string (s : string) : string :=
  String double_quote (json_escape s +:+ String double_quote EmptyString).

(** [json.dumps(o)] with the default separators; the digits of a finite
    float are those of [float.__repr__]. *)
Fixpoint json_dumps (o : pyval) : string :=
  match o with
  | PNone => "null"
  | PBool true => "true"
  | PBool false => "false"
  | PInt n => str_of_int n
  | PFloat S754_nan => "NaN"
  | PFloat (S754_infinity false) => "Infinity"
  | PFloat (S754_infinity true) => "-Infinity"
  | PFloat f => str_of_other (PFloat f)
  | PStr s => json_string s
  | PList l => "[" +:+ join ", " (map json_dumps l) +:+ "]"
  | PTuple l => "[" +:+ join ", " (map json_dumps l) +:+ "]"
  | PDict d =>
      "{" +:+ join ", " (map (fun kv : string * pyval =>
                                let (k, v) := kv in
                                json_string k +:+ ": " +:+ json_dumps v) d)
      +:+ "}"
  end.

(** What [session.post] is called with. *)
Record request := {
  req_url : string;
  req_json : pydict;
  req_headers : list (string * string)
}.

(** [fields[k] = v] when the argument [v] was given. *)
Definition set_if_given (fields : pydict) (k : string) (v : pyval) : pydict :=
  if negb (is_none v) then dict_setitem fields k v else fields.

(** The order id a call uses: the caller's, or a generated one. *)
Definition order_id_or_random (order_id : pyval) (now : datetime) (g : rng)
    : pyval * rng :=
  if is_none order_id then
    let (s, g') := generate_random_order_id now g in (PStr s, g')
  else (order_id, g).

Definition signed_post (self : LavaBusinessAPI) (url : string) (fields : pydict)
    : request :=
  let signature := generate_signature self (json_dumps (PDict fields)) in
  {| req_url := url;
     req_json := fields;
     req_headers := [("Accept", "application/json"); ("Signature", signature)] |}.

(** [LavaBusinessAPI.create_invoice], lines 156-186: the request sent. *)
Definition create_invoice_request (self : LavaBusinessAPI)
    (amount shop_id order_id expire custom_field comment webhook_url fail_url
     success_url include_service exclude_service : pyval)
    (now : datetime) (g : rng) : request * rng :=
  let (order_id, g') := order_id_or_random order_id now g in
  let fields := [("orderId", order_id); ("shopId", shop_id); ("sum", amount)] in
  let fields := set_if_given fields "customFields" custom_field in
  let fields := set_if_given fields "comment" comment in
  let fields := set_if_given fields "hookUrl" webhook_url in
  let fields := set_if_given fields "failUrl" fail_url in
  let fields := set_if_given fields "successUrl" success_url in
  let fields := set_if_given fields "expire" expire in
  let fields := set_if_given fields "includeService" include_service in
  let fields := set_if_given fields "excludeService" exclude_service in
  (signed_post self "https://api.lava.ru/business/invoice/create" fields, g').

(** [LavaBusinessAPI.get_balance], lines 284-289: the request sent. *)
Definition get_balance_request (self : LavaBusinessAPI) (shop_id : pyval) : request :=
  let fields := [("shopId", shop_id)] in
  signed_post self "https://api.lava.ru/business/shop/get-balance" fields.

(** [service + "_payoff"] *)
Definition py_add_str (o : pyval) (suffix : string) : result pyval :=
  match o with
  | PStr s => Return (PStr (s +:+ suffix))
  | _ => Raise TypeError
  end.

(** [LavaBusinessAPI.payoff], lines 321-335: the request sent. *)
Definition payoff_request (self : LavaBusinessAPI)
    (shop_id amount service wallet order_id hook_url : pyval)
    (now : datetime) (g : rng) : result request * rng :=
  let (order_id, g') := order_id_or_random order_id now g in
  (service' <- py_add_str service "_payoff" ;;
   let fields := [("orderId", order_id); ("shopId", shop_id); ("amount", amount);
                  ("service", service'); ("walletTo", wallet)] in
   let fields := set_if_given fields "hookUrl" hook_url in
   Return (signed_post self "https://api.lava.ru/business/payoff/create" fields),
   g').

(** A str of printable ASCII characters. *)
Definition printable_ascii (s : string) : bool :=
  forallb (fun c => in_range 32 126 (code_point c)) (list_ascii_of_string s).

(** The optional arguments of [create_invoice] with their wire names, in
    the order the code looks at them. *)
Definition invoice_options
    (expire custom_field comment webhook_url fail_url success_url include_service
     exclude_service : pyval) : pydict :=
  [("customFields", custom_field); ("comment", comment); ("hookUrl", webhook_url);
   ("failUrl", fail_url); ("successUrl", success_url); ("expire", expire);
   ("includeService", include_service); ("excludeService", exclude_service)].

Definition given (kv : string * pyval) : bool := negb (is_none (snd kv)).

(** Induction on a value with its elements: the elements of a list or a
    tuple and the values of a dict satisfy the property. *)
Fixpoint pyval_nested_ind (P : pyval -> Prop)
    (HNone : P PNone) (HBool : forall b, P (PBool b)) (HInt : forall n, P (PInt n))
    (HFloat : forall f, P (PFloat f)) (HStr : forall s, P (PStr s))
    (HList : forall l, Forall P l -> P (PList l))
    (HTuple : forall l, Forall P l -> P (PTuple l))
    (HDict : forall d, Forall (fun kv => P (snd kv)) d -> P (PDict d))
    (o : pyval) {struct o} : P o :=
  let rec := pyval_nested_ind P HNone HBool HInt HFloat HStr HList HTuple HDict in
  match o with
  | PNone => HNone
  | PBool b => HBool b
  | PInt n => HInt n
  | PFloat f => HFloat f
  | PStr s => HStr s
  | PList l =>
      HList l ((fix all (l : list pyval) : Forall P l :=
                  match l with
                  | [] => @List.Forall_nil _ P
                  | x :: l' => @List.Forall_cons _ P x l' (rec x) (all l')
                  end) l)
  | PTuple l =>
      HTuple l ((fix all (l : list pyval) : Forall P l :=
                   match l with
                   | [] => @List.Forall_nil _ P
                   | x :: l' => @List.Forall_cons _ P x l' (rec x) (all l')
                   end) l)
  | PDict d =>
      HDict d ((fix all (d : list (string * pyval))
                  : Forall (fun kv => P (snd kv)) d :=
                  match d with
                  | [] => @List.Forall_nil _ (fun kv => P (snd kv))
                  | (k, v) :: d' =>
                      @List.Forall_cons _ (fun kv => P (snd kv)) (k, v) d' (rec v) (all d')
                  end) d)
  end.

(** * Properties *)

(** ** Running [handle_webhook] *)

Lemma fresh_not_allocated (σ : store) (l : loc) (d : pydict) :
  σ !! l = Some d -> fresh (dom σ) <> l.
Proof.
  intros Hl Heq.
  assert (Hin : l ∈ dom σ) by (apply elem_of_dom; eauto).
  rewrite <- Heq in Hin. exact (is_fresh (dom σ) Hin).
Qed.

Lemma fresh_lookup (σ : store) : σ !! fresh (dom σ) = None.
Proof. apply not_elem_of_dom. apply is_fresh. Qed.

Lemma setitem_run (σ : store) (l : loc) (d : pydict) (k : string) (v : pyval) :
  σ !! l = Some d ->
  setitem l k v σ = (<[l := dict_setitem d k v]> σ, Return tt).
Proof.
  intros Hl. unfold setitem. f_equal.
  apply map_eq. intros j. rewrite lookup_alter, lookup_insert.
  destruct (decide (l = j)) as [->|]; [rewrite Hl|]; reflexivity.
Qed.

Lemma comprehension_run (kvs : pydict) : forall (σ : store) (l : loc) (d : pydict),
  σ !! l = Some d ->
  for_each kvs (fun kv => setitem l (str_lower (fst kv)) (snd kv)) σ
  = (<[l := fold_left (fun d kv => dict_setitem d (str_lower (fst kv)) (snd kv)) kvs d]> σ,
     Return tt).
Proof.
  induction kvs as [|kv kvs IH]; intros σ l d Hl.
  - simpl. unfold ret. f_equal. symmetry. apply insert_id. exact Hl.
  - simpl. unfold bind_proc. rewrite (setitem_run σ l d _ _ Hl).
    rewrite (IH _ l (dict_setitem d (str_lower (fst kv)) (snd kv))).
    + rewrite insert_insert_eq. reflexivity.
    + apply lookup_insert_eq.
Qed.

Lemma deref_run (σ : store) (l : loc) (d : pydict) :
  σ !! l = Some d -> deref l σ = (σ, Return d).
Proof. intros Hl. unfold deref. rewrite Hl. reflexivity. Qed.

Lemma contains_run (σ : store) (l : loc) (d : pydict) (k : string) :
  σ !! l = Some d -> contains l k σ = (σ, Return (dict_contains d k)).
Proof.
  intros Hl. unfold contains, bind_proc. rewrite (deref_run _ _ _ Hl). reflexivity.
Qed.

Lemma reads_ret {A} (σ : store) (a : A) : reads σ (ret a) (Return a).
Proof. reflexivity. Qed.

Lemma reads_raise {A} (σ : store) (ex : exn) : reads σ (raise ex) (@Raise A ex).
Proof. reflexivity. Qed.

Lemma reads_lift {A} (σ : store) (r : result A) : reads σ (lift r) r.
Proof. reflexivity. Qed.

Lemma reads_if {A} (σ : store) (c : bool) (m1 m2 : proc A) (r1 r2 : result A) :
  reads σ m1 r1 -> reads σ m2 r2 ->
  reads σ (if c then m1 else m2) (if c then r1 else r2).
Proof. destruct c; trivial. Qed.

Lemma reads_bind {A B} (σ : store) (m : proc A) (k : A -> proc B)
    (r : result A) (k' : A -> result B) :
  reads σ m r -> (forall a, reads σ (k a) (k' a)) ->
  reads σ (bind_proc m k) (bind r k').
Proof.
  unfold reads, bind_proc. intros Hm Hk. rewrite Hm.
  destruct r as [a|ex]; simpl; [apply Hk | reflexivity].
Qed.

Lemma reads_try {A} (σ : store) (body : proc A) (h : exn -> proc A)
    (r : result A) (h' : exn -> result A) :
  reads σ body r -> (forall ex, reads σ (h ex) (h' ex)) ->
  reads σ (try_proc body h) (try_except r h').
Proof.
  unfold reads, try_proc. intros Hm Hh. rewrite Hm.
  destruct r as [a|ex]; simpl; [reflexivity | apply Hh].
Qed.

Lemma reads_getitem (σ : store) (l : loc) (d : pydict) (k : string) :
  σ !! l = Some d -> reads σ (getitem l k) (dict_getitem d k).
Proof.
  intros Hl. unfold reads, getitem, bind_proc. rewrite (deref_run _ _ _ Hl). reflexivity.
Qed.

Lemma reads_get (σ : store) (l : loc) (d : pydict) (k : string) (v : pyval) :
  σ !! l = Some d -> reads σ (get l k v) (Return (dict_get d k v)).
Proof.
  intros Hl. unfold reads, get, bind_proc. rewrite (deref_run _ _ _ Hl). reflexivity.
Qed.

Lemma bind_Return {A} (r : result A) : bind r Return = r.
Proof. destruct r; reflexivity. Qed.

(** The store and the outcome of a call, for live arguments: one new object,
    the lowered headers, and the outcome computed from the payload. *)
Lemma handle_webhook_run (self : LavaBusinessAPI) (received_data headers : loc)
    (now : datetime) (σ : store) (data hdrs : pydict) :
  σ !! received_data = Some data ->
  σ !! headers = Some hdrs ->
  handle_webhook self received_data headers now σ
  = (<[fresh (dom σ) := lowered_headers hdrs]> σ,
     if dict_contains (lowered_headers hdrs) "authorization"
     then webhook_outcome data now
     else Raise (InvalidWebhookSignatureException "No 'Authorization' header")).
Proof.
  intros Hdata Hhdrs.
  pose proof (fresh_not_allocated σ _ _ Hdata) as Hne.
  set (l := fresh (dom σ)) in *.
  assert (Hd : forall d', (<[l := d']> σ : store) !! received_data = Some data).
  { intros d'. rewrite lookup_insert_ne by exact Hne. exact Hdata. }
  unfold handle_webhook, items.
  unfold bind_proc at 1. rewrite (deref_run _ _ _ Hhdrs).
  unfold bind_proc at 1. unfold new_dict. fold l.
  unfold bind_proc at 1.
  rewrite (comprehension_run hdrs (<[l := []]> σ) l []) by apply lookup_insert_eq.
  rewrite insert_insert_eq. fold (lowered_headers hdrs).
  set (σ' := <[l := lowered_headers hdrs]> σ).
  unfold bind_proc at 1.
  rewrite (contains_run σ' l (lowered_headers hdrs)) by apply lookup_insert_eq.
  destruct (dict_contains (lowered_headers hdrs) "authorization"); simpl; [|reflexivity].
  assert (Hd' : σ' !! received_data = Some data) by apply Hd.
  clearbody σ'.
  rewrite <- (bind_Return (webhook_outcome data now)).
  unfold webhook_outcome.
  repeat first
    [ apply reads_ret | apply reads_raise | apply reads_lift
    | apply (reads_getitem _ _ _ _ Hd') | apply (reads_get _ _ _ _ _ Hd')
    | apply reads_if
    | apply reads_bind; [|intros ?]
    | apply reads_try; [|intros ?] ].
Qed.

(** ** The signer *)

Lemma hex_of_bytes_length (bs : bytes) :
  String.length (hex_of_bytes bs) = (2 * length bs)%nat.
Proof. induction bs as [|b bs IH]; simpl; [reflexivity | rewrite IH; lia]. Qed.

Lemma hex_digit_lower (n : Z) : is_lower_hex (hex_digit n) = true.
Proof.
  unfold hex_digit.
  pose proof (Z.mod_pos_bound n 16 ltac:(lia)) as Hb.
  destruct (n mod 16) as [|p|p]; [reflexivity | | lia].
  do 4 (destruct p as [p|p|]; try reflexivity); lia.
Qed.

Lemma hex_of_bytes_lower (bs : bytes) :
  forallb is_lower_hex (list_ascii_of_string (hex_of_bytes bs)) = true.
Proof.
  induction bs as [|b bs IH]; [reflexivity|].
  cbn [hex_of_bytes list_ascii_of_string forallb].
  rewrite !hex_digit_lower, IH. reflexivity.
Qed.

Lemma digest_length (msg : bytes) : length (SHA256.digest msg) = 32%nat.
Proof. reflexivity. Qed.

Lemma hmac_length (key msg : bytes) : length (SHA256.hmac key msg) = 32%nat.
Proof. unfold SHA256.hmac. apply digest_length. Qed.

(** The model of the library agrees with the published vectors: FIPS 180-4
    ("abc"), RFC 4231 test case 2, and a key longer than one block
    (RFC 4231 test case 6). *)
Example sha256_abc :
  hex_of_bytes (SHA256.digest (utf8_encode "abc"))
  = "ba7816bf8f01cfea414140de5dae2223b00361a396177a9cb410ff61f20015ad".
Proof. vm_compute. reflexivity. Qed.

Example hmac_sha256_rfc4231_2 :
  generate_signature {| secret_key := "Jefe" |} "what do ya want for nothing?"
  = "5bdcc146bf60754e6a042426089575c75a003f089d2739839dec58b964ec3843".
Proof. vm_compute. reflexivity. Qed.

Example hmac_sha256_rfc4231_6 :
  hex_of_bytes
    (SHA256.hmac (repeat 170 131)
       (utf8_encode "Test Using Larger Than Block-Size Key - Hash Key First"))
  = "60e431591ee0b67f0d8a26aacbf5b77f8e0bc6213728c5140546040f0ee37f54".
Proof. vm_compute. reflexivity. Qed.

Lemma all_below_spec (P : Z -> bool) (k : nat) (base : Z) :
  all_below k base P = true ->
  forall n, base <= n < base + 2 ^ Z.of_nat k -> P n = true.
Proof.
  revert base. induction k as [|k IH]; intros base H n Hn.
  - change (2 ^ Z.of_nat 0) with 1 in Hn. replace n with base by lia. exact H.
  - cbn [all_below] in H. apply andb_prop in H as [H1 H2].
    rewrite Nat2Z.inj_succ, Z.pow_succ_r in Hn by lia.
    destruct (Z_lt_le_dec n (base + 2 ^ Z.of_nat k)) as [Hlt|Hle].
    + apply (IH base H1). lia.
    + apply (IH _ H2). lia.
Qed.

(** Every code point that is not a surrogate, checked one by one. *)
Lemma char_round_trip_all (n : Z) : Text.char_round_trip n = true.
Proof.
  destruct (in_range 0 0x10FFFF n) eqn:Hr.
  - apply (all_below_spec Text.char_round_trip 21 0).
    + vm_compute. reflexivity.
    + change (2 ^ Z.of_nat 21) with 2097152.
      unfold in_range in Hr. lia.
  - unfold Text.char_round_trip. rewrite Hr. reflexivity.
Qed.

Lemma utf8_char_read (n : Z) :
  in_range 0 0x10FFFF n && negb (Text.is_surrogate n) = true ->
  exists b,
    Text.utf8_char n = Return b
    /\ forallb (in_range 0 255) b = true
    /\ forall r, Text.utf8_read (b ++ r) = option_map (cons n) (Text.utf8_read r).
Proof.
  intros Hn. pose proof (char_round_trip_all n) as H.
  unfold Text.char_round_trip in H. rewrite Hn in H.
  destruct (Text.utf8_char n) as [b|ex]; [|discriminate].
  exists b. split; [reflexivity|].
  apply andb_prop in H as [Hbytes H]. split; [exact Hbytes|]. intros r.
  destruct b as [|b0 [|b1 [|b2 [|b3 [|b4 b]]]]]; try discriminate;
    repeat match type of H with
           | _ && _ = true => apply andb_prop in H as [H ?]
           end;
    repeat match goal with
           | Hc : negb _ = true |- _ => apply negb_true_iff in Hc
           | Hc : (_ =? _) = true |- _ => apply Z.eqb_eq in Hc
           end;
    cbn [app Text.utf8_read];
    repeat match goal with
           | Hc : (_ <? _) = _ |- _ => rewrite Hc; clear Hc
           end;
    subst n; reflexivity.
Qed.

(** An encodable str has an encoding, made of bytes, that reads back as the
    str. *)
Lemma utf8_encode_read (s : Text.str) :
  Text.encodable s = true ->
  exists bs,
    Text.utf8_encode s = Return bs
    /\ forallb (in_range 0 255) bs = true
    /\ Text.utf8_read bs = Some s.
Proof.
  induction s as [|n s IH]; intros Hs.
  - exists []. repeat split.
  - cbn [Text.encodable forallb] in Hs. apply andb_prop in Hs as [Hn Hs].
    destruct (utf8_char_read n Hn) as (b & Hb & Hbytes & Hread).
    destruct (IH Hs) as (bs & Hbs & Hbsbytes & Hbsread).
    exists (b ++ bs). cbn [Text.utf8_encode]. rewrite Hb, Hbs. cbn [bind].
    split; [reflexivity|]. split.
    + rewrite forallb_app, Hbytes, Hbsbytes. reflexivity.
    + rewrite Hread, Hbsread. reflexivity.
Qed.

(** A lone surrogate anywhere in a str stops the encoding. *)
Lemma utf8_encode_surrogate (s : Text.str) :
  Text.is_str s = true -> Text.encodable s = false ->
  Text.utf8_encode s = Raise UnicodeEncodeError.
Proof.
  induction s as [|n s IH]; intros Hstr Hs; [discriminate|].
  cbn [Text.is_str Text.encodable forallb] in Hstr, Hs.
  apply andb_prop in Hstr as [Hn Hstr]. rewrite Hn in Hs. cbn [andb] in Hs.
  cbn [Text.utf8_encode].
  destruct (Text.is_surrogate n) eqn:Hsur.
  - unfold Text.utf8_char. rewrite Hsur.
    unfold Text.is_surrogate, in_range in Hsur.
    destruct (Z.ltb_spec n 0x80); [lia|].
    destruct (Z.ltb_spec n 0x800); [lia|]. reflexivity.
  - cbn [negb andb] in Hs.
    destruct (utf8_char_read n) as (b & Hb & _); [rewrite Hn, Hsur; reflexivity|].
    rewrite Hb. cbn [bind]. rewrite (IH Hstr Hs). reflexivity.
Qed.

(** On code points below U+0100 the encoder of the narrower model is the
    encoder in full. *)
Lemma utf8_char_latin1 (c : ascii) : Text.utf8_char (code_point c) = Return (utf8_char c).
Proof. destruct c as [[] [] [] [] [] [] [] []]; reflexivity. Qed.

Lemma utf8_encode_latin1 (s : string) :
  Text.utf8_encode (Text.of_string s) = Return (utf8_encode s).
Proof.
  unfold Text.of_string, utf8_encode.
  induction (list_ascii_of_string s) as [|c l IH]; [reflexivity|].
  cbn [map flat_map Text.utf8_encode]. rewrite utf8_char_latin1, IH. reflexivity.
Qed.

(** C4 (amended): for every secret key and payload string without lone
    surrogates, [generate_signature] returns the hexadecimal digits, 64 of
    them and lowercase, of the HMAC-SHA256 of the UTF-8 bytes of the string
    under the UTF-8 bytes of the key, these bytes reading back as the str
    they encode; the signatures of [known_answers] are the ones CPython
    computes; on strs below U+0100 this is the signer the requests use; and
    a lone surrogate in the key or in the string ends the call in
    [UnicodeEncodeError]. *)
Theorem generate_signature_hmac_sha256_hex :
  (forall k s : Text.str,
      Text.encodable k = true -> Text.encodable s = true ->
      exists key msg : bytes,
        Text.utf8_encode k = Return key
        /\ Text.utf8_encode s = Return msg
        /\ forallb (in_range 0 255) key = true
        /\ forallb (in_range 0 255) msg = true
        /\ Text.utf8_read key = Some k
        /\ Text.utf8_read msg = Some s
        /\ Text.generate_signature k s = Return (hex_of_bytes (SHA256.hmac key msg))
        /\ String.length (hex_of_bytes (SHA256.hmac key msg)) = 64%nat
        /\ forallb is_lower_hex (list_ascii_of_string (hex_of_bytes (SHA256.hmac key msg)))
           = true)
  /\ (forall (k s : Text.str) (d : string),
        In (k, s, d) known_answers -> Text.generate_signature k s = Return d)
  /\ (forall (self : LavaBusinessAPI) (s : string),
        Text.generate_signature (Text.of_string (secret_key self)) (Text.of_string s)
        = Return (generate_signature self s))
  /\ (forall k s : Text.str,
        Text.is_str k = true -> Text.is_str s = true ->
        Text.encodable k && Text.encodable s = false ->
        Text.generate_signature k s = Raise UnicodeEncodeError).
Proof.
  split; [|split; [|split]].
  - intros k s Hk Hs.
    destruct (utf8_encode_read k Hk) as (key & Hkey & Hkb & Hkr).
    destruct (utf8_encode_read s Hs) as (msg & Hmsg & Hmb & Hmr).
    exists key, msg. unfold Text.generate_signature. rewrite Hkey, Hmsg. cbn [bind].
    split; [reflexivity|]. split; [reflexivity|].
    split; [exact Hkb|]. split; [exact Hmb|].
    split; [exact Hkr|]. split; [exact Hmr|].
    split; [reflexivity|]. split.
    + rewrite hex_of_bytes_length, hmac_length. reflexivity.
    + apply hex_of_bytes_lower.
  - intros k s d H. unfold known_answers in H. cbn [In] in H.
    repeat (destruct H as [H|H];
            [injection H as <- <- <-; vm_compute; reflexivity|]).
    contradiction.
  - intros self s. unfold Text.generate_signature, generate_signature.
    rewrite !utf8_encode_latin1. reflexivity.
  - intros k s Hk Hs H. unfold Text.generate_signature.
    destruct (Text.encodable k) eqn:Hek.
    + destruct (utf8_encode_read k Hek) as (key & Hkey & _).
      rewrite Hkey. cbn [bind].
      rewrite (utf8_encode_surrogate s Hs H). reflexivity.
    + rewrite (utf8_encode_surrogate k Hk Hek). reflexivity.
Qed.

(** ** Order ids *)

Lemma bounded_check (P : Z -> bool) (bound : Z) :
  forallb (fun k => P (Z.of_nat k)) (seq 0 (Z.to_nat bound)) = true ->
  forall n, 0 <= n < bound -> P n = true.
Proof.
  intros Hall n Hn.
  rewrite forallb_forall in Hall.
  rewrite <- (Z2Nat.id n) by lia.
  apply Hall. apply in_seq. lia.
Qed.

Lemma format_04d_digits (n : Z) :
  0 <= n <= 9999 -> digits_exactly 4 (format_0d 4 n) = true.
Proof.
  intros Hn. apply (bounded_check (fun k => digits_exactly 4 (format_0d 4 k)) 10000).
  - vm_compute. reflexivity.
  - lia.
Qed.

Lemma format_02d_digits (n : Z) :
  0 <= n <= 99 -> digits_exactly 2 (format_0d 2 n) = true.
Proof.
  intros Hn. apply (bounded_check (fun k => digits_exactly 2 (format_0d 2 k)) 100).
  - vm_compute. reflexivity.
  - lia.
Qed.

Lemma list_ascii_of_string_app (s t : string) :
  list_ascii_of_string (s +:+ t) = list_ascii_of_string s ++ list_ascii_of_string t.
Proof. induction s as [|c s IH]; simpl; [reflexivity | rewrite IH; reflexivity]. Qed.

Lemma string_length_app (s t : string) :
  String.length (s +:+ t) = (String.length s + String.length t)%nat.
Proof. induction s as [|c s IH]; simpl; [reflexivity | rewrite IH; reflexivity]. Qed.

Lemma string_app_empty (s : string) : s +:+ "" = s.
Proof.
  induction s as [|c s IH]; [reflexivity|].
  change (String c (s +:+ "") = String c s). f_equal. exact IH.
Qed.

Lemma digits_exactly_app (n m : nat) (s t : string) :
  digits_exactly n s = true -> digits_exactly m t = true ->
  digits_exactly (n + m) (s +:+ t) = true.
Proof.
  unfold digits_exactly. intros Hs Ht.
  apply andb_true_iff in Hs as [Hls Hs]. apply andb_true_iff in Ht as [Hlt Ht].
  apply Nat.eqb_eq in Hls. apply Nat.eqb_eq in Hlt.
  apply andb_true_iff. split.
  - apply Nat.eqb_eq. rewrite string_length_app. lia.
  - rewrite list_ascii_of_string_app, forallb_app, Hs, Ht. reflexivity.
Qed.

Lemma match_digits_app (n : nat) : forall (s rest : string),
  digits_exactly n s = true -> match_digits n (s +:+ rest) = Some rest.
Proof.
  induction n as [|n IH]; intros s rest Hs; unfold digits_exactly in Hs;
    apply andb_true_iff in Hs as [Hlen Hdig]; apply Nat.eqb_eq in Hlen.
  - destruct s; [reflexivity | discriminate].
  - destruct s as [|c s]; [discriminate|].
    simpl in Hlen, Hdig. apply andb_true_iff in Hdig as [Hc Hdig].
    simpl. rewrite Hc. apply IH. unfold digits_exactly.
    rewrite Hdig. replace (String.length s =? n)%nat with true; [reflexivity|].
    symmetry. apply Nat.eqb_eq. lia.
Qed.

Lemma match_dash_app (s : string) : match_dash ("-" +:+ s) = Some s.
Proof. reflexivity. Qed.

Lemma order_id_shape (date r1 time r2 : string) :
  digits_exactly 8 date = true -> digits_exactly 4 r1 = true ->
  digits_exactly 6 time = true -> digits_exactly 4 r2 = true ->
  matches_order_id_pattern (date +:+ "-" +:+ r1 +:+ "-" +:+ time +:+ "-" +:+ r2) = true.
Proof.
  intros Hd H1 Ht H2. unfold matches_order_id_pattern.
  rewrite (match_digits_app 8 date _ Hd), match_dash_app.
  rewrite (match_digits_app 4 r1 _ H1), match_dash_app.
  rewrite (match_digits_app 6 time _ Ht), match_dash_app.
  rewrite <- (string_app_empty r2).
  rewrite (match_digits_app 4 r2 "" H2). reflexivity.
Qed.

Lemma randint_range (a b : Z) (g : rng) :
  a <= b -> a <= fst (randint a b g) <= b.
Proof.
  intros Hab. unfold randint.
  pose proof (randbelow_range (b - a + 1) g ltac:(lia)) as Hr.
  destruct (randbelow (b - a + 1) g) as [r g']. simpl in *. lia.
Qed.


(** ** Which exceptions a computation can raise *)

Lemma bind_raise_only {A B} (P : exn -> Prop) (m : result A) (k : A -> result B) :
  (forall ex, m = Raise ex -> P ex) ->
  (forall a ex, k a = Raise ex -> P ex) ->
  forall ex, bind m k = Raise ex -> P ex.
Proof.
  intros Hm Hk ex. destruct m as [a|ex']; simpl.
  - apply Hk.
  - intros [= ->]. apply Hm. reflexivity.
Qed.

Lemma try_raise_only {A} (P Q : exn -> Prop) (body : result A) (h : exn -> result A) :
  (forall ex, body = Raise ex -> P ex) ->
  (forall ex0 ex, P ex0 -> h ex0 = Raise ex -> Q ex) ->
  forall ex, try_except body h = Raise ex -> Q ex.
Proof.
  intros Hb Hh ex. destruct body as [a|ex0]; simpl; [discriminate|].
  apply Hh. apply Hb. reflexivity.
Qed.

Lemma dict_getitem_raises (d : pydict) (k : string) (ex : exn) :
  dict_getitem d k = Raise ex -> ex = KeyError k.
Proof. unfold dict_getitem. destruct (assoc k d); congruence. Qed.

Lemma py_float_raises (o : pyval) (ex : exn) :
  py_float o = Raise ex -> ex = ValueError \/ ex = TypeError \/ ex = OverflowError.
Proof.
  destruct o; simpl; try (intros [= <-]; auto).
  - destruct (float_of_Z n); intros [= <-]; auto.
  - destruct (float_of_str s); intros [= <-]; auto.
Qed.

Lemma py_strptime_raises (o : pyval) (fmt : string) (ex : exn) :
  py_strptime o fmt = Raise ex -> ex = ValueError \/ ex = TypeError.
Proof.
  destruct o; simpl; try (intros [= <-]; auto).
  destruct (strptime s fmt); intros [= <-]; auto.
Qed.

(** What the payload block of [handle_webhook] can raise. *)
Lemma webhook_outcome_raises (data : pydict) (now : datetime) (ex : exn) :
  webhook_outcome data now = Raise ex ->
  ex = InvalidResponseException (Some "Error while reading data from dictionary")
  \/ ex = ValueError \/ ex = TypeError \/ ex = OverflowError.
Proof.
  revert ex. unfold webhook_outcome.
  apply (try_raise_only payload_error
           (fun ex =>
              ex = InvalidResponseException (Some "Error while reading data from dictionary")
              \/ ex = ValueError \/ ex = TypeError \/ ex = OverflowError)).
  - assert (Hget : forall k e, dict_getitem data k = Raise e -> payload_error e).
    { intros k e He. left. eexists. exact (dict_getitem_raises _ _ _ He). }
    assert (Hfloat : forall k e,
               (a <- dict_getitem data k ;; py_float a) = Raise e -> payload_error e).
    { intros k. apply bind_raise_only; [apply Hget|].
      intros a e He. right. exact (py_float_raises _ _ He). }
    apply bind_raise_only.
    + apply (try_raise_only payload_error payload_error).
      * apply bind_raise_only; [apply Hget|].
        intros a e He. right.
        destruct (py_strptime_raises _ _ _ He) as [->| ->]; auto.
      * intros ex0 e [[k ->]|[->|[->| ->]]]; simpl; try discriminate.
        all: intros [= <-]; right; auto.
    + intros pay_time.
      apply bind_raise_only; [apply Hget|]. intros invoice_id.
      apply bind_raise_only; [discriminate|]. intros order_id.
      apply bind_raise_only; [apply Hget|]. intros status.
      apply bind_raise_only; [apply Hget|]. intros status'.
      apply bind_raise_only; [apply Hfloat|]. intros amount.
      apply bind_raise_only; [apply Hfloat|]. intros credited.
      apply bind_raise_only; [discriminate|]. intros custom_fields.
      discriminate.
  - intros ex0 e [[k ->]|[->|[->| ->]]]; simpl; intros [= <-]; auto.
Qed.

(** ** The webhook handler *)

(** C3: [handle_webhook] raises [InvalidWebhookSignatureException] with the
    message "No 'Authorization' header" exactly when the headers, once their
    keys are lowercased, have no 'authorization' key; when the key is there,
    whatever its value and whatever the secret key, the outcome is that of
    the payload block, which never raises that exception. *)
Theorem handle_webhook_authorization_header (self : LavaBusinessAPI)
    (received_data headers : loc) (now : datetime) (σ : store) (data hdrs : pydict) :
  σ !! received_data = Some data ->
  σ !! headers = Some hdrs ->
  (snd (handle_webhook self received_data headers now σ)
   = Raise (InvalidWebhookSignatureException "No 'Authorization' header")
   <-> dict_contains (lowered_headers hdrs) "authorization" = false)
  /\ (forall msg,
        snd (handle_webhook self received_data headers now σ)
        = Raise (InvalidWebhookSignatureException msg) ->
        dict_contains (lowered_headers hdrs) "authorization" = false)
  /\ (dict_contains (lowered_headers hdrs) "authorization" = true ->
      snd (handle_webhook self received_data headers now σ) = webhook_outcome data now)
  /\ (forall (self' : LavaBusinessAPI) (headers' : loc) (σ' : store) (hdrs' : pydict),
        σ' !! received_data = Some data ->
        σ' !! headers' = Some hdrs' ->
        dict_contains (lowered_headers hdrs) "authorization" = true ->
        dict_contains (lowered_headers hdrs') "authorization" = true ->
        snd (handle_webhook self' received_data headers' now σ')
        = snd (handle_webhook self received_data headers now σ)).
Proof.
  intros Hdata Hhdrs.
  rewrite (handle_webhook_run self _ _ now σ data hdrs Hdata Hhdrs). cbn [snd].
  assert (Hno : forall msg,
             webhook_outcome data now <> Raise (InvalidWebhookSignatureException msg)).
  { intros msg H. apply webhook_outcome_raises in H.
    destruct H as [H|[H|[H|H]]]; discriminate H. }
  split; [|split; [|split]].
  - destruct (dict_contains (lowered_headers hdrs) "authorization"); split; intros H.
    + exfalso. exact (Hno _ H).
    + discriminate.
    + reflexivity.
    + reflexivity.
  - intros msg H.
    destruct (dict_contains (lowered_headers hdrs) "authorization"); [|reflexivity].
    exfalso. exact (Hno _ H).
  - intros ->. reflexivity.
  - intros self' headers' σ' hdrs' Hdata' Hhdrs' Hc Hc'.
    rewrite (handle_webhook_run self' _ _ now σ' data hdrs' Hdata' Hhdrs'). cbn [snd].
    rewrite Hc, Hc'. reflexivity.
Qed.

(** The payment time read from the payload: parsed from a str under
    'payed', the clock reading when the key is missing or does not parse. *)
Lemma pay_time_fallback (data : pydict) (now : datetime) :
  (forall v, assoc "payed" data = Some v -> exists s, v = PStr s) ->
  try_except
    (payed <- dict_getitem data "payed" ;; py_strptime payed "%Y-%m-%d %H:%M:%S")
    (fun ex => if is_ValueError ex || is_KeyError ex then Return now else Raise ex)
  = Return (match assoc "payed" data with
            | Some (PStr s) =>
                match strptime s "%Y-%m-%d %H:%M:%S" with Some t => t | None => now end
            | _ => now
            end).
Proof.
  intros Hstr. unfold dict_getitem.
  destruct (assoc "payed" data) as [v|]; [|reflexivity].
  destruct (Hstr v eq_refl) as [s ->]. simpl.
  destruct (strptime s "%Y-%m-%d %H:%M:%S"); reflexivity.
Qed.

(** Where the conversions go through: with an 'authorization' header
    present and 'payed' absent or a str, a payload that has invoice_id, status, amount and credited,
    the last two convertible by [float], yields a [SuccessfulInvoiceInfo]
    with [payed] true exactly when the status is the str "success",
    [pay_time] parsed from 'payed' or else the clock reading, and amount and
    credited as floats; a payload that lacks invoice_id, status or amount,
    or lacks credited while its amount converts, raises
    [InvalidResponseException]. *)
Theorem handle_webhook_maps_payload (self : LavaBusinessAPI)
    (received_data headers : loc) (now : datetime) (σ : store) (data hdrs : pydict) :
  σ !! received_data = Some data ->
  σ !! headers = Some hdrs ->
  dict_contains (lowered_headers hdrs) "authorization" = true ->
  (forall v, assoc "payed" data = Some v -> exists s, v = PStr s) ->
  (forall inv st am cr a c,
      assoc "invoice_id" data = Some inv ->
      assoc "status" data = Some st ->
      assoc "amount" data = Some am ->
      assoc "credited" data = Some cr ->
      py_float am = Return a ->
      py_float cr = Return c ->
      exists info,
        snd (handle_webhook self received_data headers now σ) = Return info
        /\ SuccessfulInvoiceInfo.invoice_id info = inv
        /\ SuccessfulInvoiceInfo.order_id info = dict_get data "order_id" (PStr "")
        /\ SuccessfulInvoiceInfo.status info = st
        /\ (SuccessfulInvoiceInfo.payed info = true <-> st = PStr "success")
        /\ SuccessfulInvoiceInfo.pay_time info
           = match assoc "payed" data with
             | Some (PStr s) =>
                 match strptime s "%Y-%m-%d %H:%M:%S" with Some t => t | None => now end
             | _ => now
             end
        /\ SuccessfulInvoiceInfo.amount info = a
        /\ SuccessfulInvoiceInfo.credited info = c)
  /\ (assoc "invoice_id" data = None \/ assoc "status" data = None
      \/ assoc "amount" data = None
      \/ (assoc "credited" data = None
          /\ forall am, assoc "amount" data = Some am -> exists a, py_float am = Return a) ->
      snd (handle_webhook self received_data headers now σ)
      = Raise (InvalidResponseException (Some "Error while reading data from dictionary"))).
Proof.
  intros Hdata Hhdrs Hauth Hpayed.
  rewrite (handle_webhook_run self _ _ now σ data hdrs Hdata Hhdrs), Hauth. cbn [snd].
  unfold webhook_outcome. rewrite (pay_time_fallback data now Hpayed).
  unfold dict_getitem. split.
  - intros inv st am cr a c Hinv Hst Ham Hcr Ha Hc.
    rewrite Hinv, Hst, Ham, Hcr. cbn [bind try_except]. rewrite Ha, Hc.
    cbn [bind try_except]. eexists. split; [reflexivity|]. cbn.
    repeat split; try reflexivity.
    + destruct st; simpl; try discriminate. intros H. f_equal.
      apply String.eqb_eq. exact H.
    + intros ->. reflexivity.
  - intros Hmiss. cbn [bind].
    destruct (assoc "invoice_id" data) as [inv|]; [|reflexivity].
    destruct (assoc "status" data) as [st|]; [|reflexivity].
    destruct (assoc "amount" data) as [am|]; [|reflexivity].
    destruct Hmiss as [H|[H|[H|[Hcr Ham]]]]; try discriminate H.
    destruct (Ham am eq_refl) as [a Ha].
    rewrite Hcr. cbn [bind try_except]. rewrite Ha. reflexivity.
Qed.

(** C5: with an 'authorization' header present, a payload that has
    invoice_id, status, amount and credited need not yield a record, and a
    payload without credited need not end in [InvalidResponseException].  A
    'payed' that is not a str makes [strptime] raise [TypeError], which the
    handler [except (ValueError, KeyError)], written for a time that is
    absent or unsuitable, does not catch: the clock reading is not used and
    the [TypeError] reaches the caller.  With 'payed' absent or a str, an
    amount that [float] refuses, or a credited that [float] refuses after
    the amount converted, ends the call in the error of [float], a
    [ValueError], [TypeError] or [OverflowError] that [except KeyError] lets
    through and that is none of the documented kinds. *)
Theorem handle_webhook_conversion_errors_escape (self : LavaBusinessAPI)
    (received_data headers : loc) (now : datetime) (σ : store) (data hdrs : pydict) :
  σ !! received_data = Some data ->
  σ !! headers = Some hdrs ->
  dict_contains (lowered_headers hdrs) "authorization" = true ->
  (forall v,
      assoc "payed" data = Some v -> (forall s, v <> PStr s) ->
      snd (handle_webhook self received_data headers now σ) = Raise TypeError
      /\ in_taxonomy TypeError = false)
  /\ (forall inv st am ex,
        (forall v, assoc "payed" data = Some v -> exists s, v = PStr s) ->
        assoc "invoice_id" data = Some inv ->
        assoc "status" data = Some st ->
        assoc "amount" data = Some am ->
        py_float am = Raise ex ->
        snd (handle_webhook self received_data headers now σ) = Raise ex
        /\ in_taxonomy ex = false
        /\ (ex = ValueError \/ ex = TypeError \/ ex = OverflowError))
  /\ (forall inv st am a cr ex,
        (forall v, assoc "payed" data = Some v -> exists s, v = PStr s) ->
        assoc "invoice_id" data = Some inv ->
        assoc "status" data = Some st ->
        assoc "amount" data = Some am ->
        py_float am = Return a ->
        assoc "credited" data = Some cr ->
        py_float cr = Raise ex ->
        snd (handle_webhook self received_data headers now σ) = Raise ex
        /\ in_taxonomy ex = false
        /\ (ex = ValueError \/ ex = TypeError \/ ex = OverflowError)).
Proof.
  intros Hdata Hhdrs Hauth.
  rewrite (handle_webhook_run self _ _ now σ data hdrs Hdata Hhdrs), Hauth. cbn [snd].
  unfold webhook_outcome. split; [|split].
  - intros v Hv Hnot. split; [|reflexivity].
    unfold dict_getitem at 1. rewrite Hv. cbn [bind].
    destruct v; try reflexivity. destruct (Hnot _ eq_refl).
  - intros inv st am ex Hpayed Hinv Hst Ham Hex.
    rewrite (pay_time_fallback data now Hpayed). unfold dict_getitem.
    rewrite Hinv, Hst, Ham. cbn [bind]. rewrite Hex.
    pose proof (py_float_raises _ _ Hex) as Hk.
    split; [|split; [|exact Hk]].
    + destruct Hk as [->|[->| ->]]; reflexivity.
    + destruct Hk as [->|[->| ->]]; reflexivity.
  - intros inv st am a cr ex Hpayed Hinv Hst Ham Ha Hcr Hex.
    rewrite (pay_time_fallback data now Hpayed). unfold dict_getitem.
    rewrite Hinv, Hst, Ham, Hcr. cbn [bind]. rewrite Ha, Hex.
    pose proof (py_float_raises _ _ Hex) as Hk.
    split; [|split; [|exact Hk]].
    + destruct Hk as [->|[->| ->]]; reflexivity.
    + destruct Hk as [->|[->| ->]]; reflexivity.
Qed.

(** C7: when 'custom_field' is absent from the payload, the returned record
    has [custom_field] equal to [None]: the test is made on a two-element
    tuple, which is never [None], so the empty-string branch is not taken. *)
Theorem handle_webhook_custom_field_absent (self : LavaBusinessAPI)
    (received_data headers : loc) (now : datetime) (σ : store) (data hdrs : pydict)
    (info : SuccessfulInvoiceInfo.t) :
  σ !! received_data = Some data ->
  σ !! headers = Some hdrs ->
  assoc "custom_field" data = None ->
  snd (handle_webhook self received_data headers now σ) = Return info ->
  SuccessfulInvoiceInfo.custom_field info = PNone
  /\ SuccessfulInvoiceInfo.custom_field info <> PStr "".
Proof.
  intros Hdata Hhdrs Hcf.
  rewrite (handle_webhook_run self _ _ now σ data hdrs Hdata Hhdrs). cbn [snd].
  destruct (dict_contains (lowered_headers hdrs) "authorization"); [|discriminate].
  unfold webhook_outcome, dict_get. rewrite Hcf.
  match goal with
  | |- context [bind (try_except ?b ?h) _] => destruct (try_except b h) as [pay_time|?]
  end; cbn [bind try_except]; [|destruct (is_KeyError _); discriminate].
  destruct (dict_getitem data "invoice_id"); cbn [bind try_except];
    [|destruct (is_KeyError _); discriminate].
  destruct (dict_getitem data "status"); cbn [bind try_except];
    [|destruct (is_KeyError _); discriminate].
  destruct (dict_getitem data "amount") as [am|]; cbn [bind try_except];
    [|destruct (is_KeyError _); discriminate].
  destruct (py_float am); cbn [bind try_except];
    [|destruct (is_KeyError _); discriminate].
  destruct (dict_getitem data "credited") as [cr|]; cbn [bind try_except];
    [|destruct (is_KeyError _); discriminate].
  destruct (py_float cr); cbn [bind try_except];
    [|destruct (is_KeyError _); discriminate].
  intros [= <-]. split; [reflexivity | discriminate].
Qed.

(** C10: a call leaves both argument dicts, and every other live dict, as
    they were, whether it returns or raises; the only change to the store
    is one new dict, built from the lowercased header entries. *)
Theorem handle_webhook_leaves_arguments_unchanged (self : LavaBusinessAPI)
    (received_data headers : loc) (now : datetime) (σ : store) (data hdrs : pydict) :
  σ !! received_data = Some data ->
  σ !! headers = Some hdrs ->
  let σ' := fst (handle_webhook self received_data headers now σ) in
  σ' !! received_data = Some data
  /\ σ' !! headers = Some hdrs
  /\ (forall l d, σ !! l = Some d -> σ' !! l = Some d)
  /\ σ !! fresh (dom σ) = None
  /\ σ' = <[fresh (dom σ) := lowered_headers hdrs]> σ.
Proof.
  intros Hdata Hhdrs.
  rewrite (handle_webhook_run self _ _ now σ data hdrs Hdata Hhdrs). cbn [fst].
  assert (Hkeep : forall l d,
             σ !! l = Some d ->
             (<[fresh (dom σ) := lowered_headers hdrs]> σ : store) !! l = Some d).
  { intros l d Hl. rewrite lookup_insert_ne; [exact Hl|].
    exact (fresh_not_allocated σ l d Hl). }
  split; [apply Hkeep; exact Hdata|].
  split; [apply Hkeep; exact Hhdrs|].
  split; [exact Hkeep|].
  split; [apply fresh_lookup | reflexivity].
Qed.

(** ** Response reconciliation *)

(** Every exception [create_invoice] lets out is one the library documents:
    the handler at lines 225-230 passes the [CreateInvoiceException] family
    and turns anything else into [InvalidResponseException]. *)
Lemma create_invoice_raises_taxonomy (response_json : pyval) (ex : exn) :
  create_invoice response_json = Raise ex -> in_taxonomy ex = true.
Proof.
  unfold create_invoice.
  match goal with |- try_except ?b _ = _ -> _ => destruct b as [info|ex0] end;
    simpl; [discriminate|].
  destruct ex0; simpl; intros [= <-]; reflexivity.
Qed.

(** The fields of the invoice returned for a status-200 response whose
    'data' dict has the six required keys. *)
Lemma create_invoice_maps_fields (response data : pydict)
    (id amount expired status shop_id url : pyval) :
  py_eq_int (dict_get response "status" (PInt 0)) 200 = true ->
  assoc "data" response = Some (PDict data) ->
  assoc "id" data = Some id -> assoc "amount" data = Some amount ->
  assoc "expired" data = Some expired -> assoc "status" data = Some status ->
  assoc "shop_id" data = Some shop_id -> assoc "url" data = Some url ->
  create_invoice (PDict response)
  = Return {| InvoiceInfo.invoice_id := id;
              InvoiceInfo.amount := amount;
              InvoiceInfo.expired := expired;
              InvoiceInfo.status := status;
              InvoiceInfo.shop_id := shop_id;
              InvoiceInfo.merchant_name := dict_get data "merchantName" (PStr "Merchant");
              InvoiceInfo.url := url;
              InvoiceInfo.comment := dict_get data "comment" (PStr "Comment");
              InvoiceInfo.include_service :=
                match assoc "include_service" data with
                | None | Some PNone => PList []
                | Some l => l
                end;
              InvoiceInfo.exclude_service :=
                match assoc "exclude_service" data with
                | None | Some PNone => PList []
                | Some l => l
                end |}.
Proof.
  intros Hst Hdata Hid Ham Hexp Hstatus Hshop Hurl.
  assert (Hd : dict_get response "data" PNone = PDict data)
    by (unfold dict_get; rewrite Hdata; reflexivity).
  unfold create_invoice. cbn [py_get bind]. rewrite Hst, Hd.
  cbn [is_none py_getitem py_get bind]. unfold dict_getitem.
  rewrite Hid, Ham, Hexp, Hstatus, Hshop, Hurl. cbn [bind try_except].
  unfold dict_get.
  destruct (assoc "include_service" data) as [[]|];
    destruct (assoc "exclude_service" data) as [[]|]; reflexivity.
Qed.

(** C6: a status-200 response whose 'data' dict lacks one of id, amount,
    expired, status, shop_id, url ends in an [InvalidResponseException]
    without a message: the one raised at line 212 with "Error while reading
    data from dictionary" is caught at line 227 and replaced. *)
Theorem create_invoice_missing_field_message_lost (response data : pydict) (k : string) :
  py_eq_int (dict_get response "status" (PInt 0)) 200 = true ->
  assoc "data" response = Some (PDict data) ->
  In k ["id"; "amount"; "expired"; "status"; "shop_id"; "url"] ->
  assoc k data = None ->
  create_invoice (PDict response) = Raise (InvalidResponseException None)
  /\ create_invoice (PDict response)
     <> Raise (InvalidResponseException (Some "Error while reading data from dictionary")).
Proof.
  intros Hst Hdata Hin Hk.
  assert (H : create_invoice (PDict response) = Raise (InvalidResponseException None)).
  { assert (Hd : dict_get response "data" PNone = PDict data)
      by (unfold dict_get; rewrite Hdata; reflexivity).
    unfold create_invoice. cbn [py_get bind]. rewrite Hst, Hd.
    cbn [is_none py_getitem py_get bind]. unfold dict_getitem.
    destruct (assoc "id" data) eqn:Hid; [|reflexivity].
    destruct (assoc "amount" data) eqn:Ham; [|reflexivity].
    destruct (assoc "expired" data) eqn:Hexp; [|reflexivity].
    destruct (assoc "status" data) eqn:Hstatus; [|reflexivity].
    destruct (assoc "shop_id" data) eqn:Hshop; [|reflexivity].
    destruct (assoc "url" data) eqn:Hurl; [|reflexivity].
    simpl in Hin. intuition (subst; congruence). }
  split; [exact H | rewrite H; discriminate].
Qed.

(** C8: a status-200 payoff response whose 'data' dict has no 'payoff_id'
    raises [InvalidResponseException] with the message "No 'payoff' field",
    in which the name payoff_id does not occur; with the key present the
    result is [str] of its value, and without 'data' the message is
    "No 'data' field". *)
Theorem payoff_missing_id_message (response data : pydict) :
  py_eq_int (dict_get response "status" (PStr "error")) 422 = false ->
  py_eq_int (dict_get response "status" (PStr "error")) 200 = true ->
  (assoc "data" response = None ->
   payoff (PDict response) = Raise (InvalidResponseException (Some "No 'data' field")))
  /\ (assoc "data" response = Some (PDict data) ->
      forall v, assoc "payoff_id" data = Some v ->
      payoff (PDict response) = Return (py_str v))
  /\ (assoc "data" response = Some (PDict data) ->
      assoc "payoff_id" data = None ->
      payoff (PDict response) = Raise (InvalidResponseException (Some "No 'payoff' field")))
  /\ contains_text "payoff_id" "No 'payoff' field" = false.
Proof.
  intros H422 H200. unfold payoff. cbn [py_get bind]. rewrite H422, H200.
  cbn [negb py_getitem]. unfold dict_getitem.
  split; [|split; [|split; [|reflexivity]]].
  - intros ->. reflexivity.
  - intros -> v Hv. cbn [try_except bind py_getitem]. unfold dict_getitem.
    rewrite Hv. reflexivity.
  - intros -> Hv. cbn [try_except bind py_getitem]. unfold dict_getitem.
    rewrite Hv. reflexivity.
Qed.

(** C1 (amended): [create_invoice] dispatches four ways on the status
    (200 without 'data': [InvalidResponseException]; 422 with a dict
    'error': [InvalidParameterException] listing its keys; 401:
    [InvalidSignatureException]; anything else, 0 when the status is
    missing: [CreateInvoiceException]), each with [code] the status value.
    [get_balance] and [payoff] dispatch three ways: 200 without 'data':
    [InvalidResponseException]; 422 with a dict 'error':
    [InvalidParameterException] listing its keys, code 422; any other
    integer status, 401 included: [APIError] with that code. *)
Theorem status_dispatch (response : pydict) :
  let st := dict_get response "status" (PInt 0) in
  let st' := dict_get response "status" (PStr "error") in
  let err := dict_get response "error" (PStr "") in
  let err' := dict_get response "error" PNone in
  (py_eq_int st 200 = true -> assoc "data" response = None ->
   create_invoice (PDict response) = Raise (InvalidResponseException None))
  /\ (py_eq_int st 200 = false -> py_eq_int st 422 = true ->
      forall fields, err = PDict fields ->
      create_invoice (PDict response)
      = Raise (InvalidParameterException
                 ("Invalid parameters: " +:+ join ", " (dict_keys fields) +:+ "; Code: "
                  +:+ py_str st +:+ "; Message: " +:+ py_str err)
                 (PStr (py_str err)) st))
  /\ (py_eq_int st 200 = false -> py_eq_int st 422 = false -> py_eq_int st 401 = true ->
      create_invoice (PDict response)
      = Raise (InvalidSignatureException
                 ("Invalid signature. Code: " +:+ py_str st +:+ "; Message: " +:+ py_str err)
                 err st))
  /\ (py_eq_int st 200 = false -> py_eq_int st 422 = false -> py_eq_int st 401 = false ->
      create_invoice (PDict response)
      = Raise (CreateInvoiceException
                 ("Unexpected error. Code: " +:+ py_str st +:+ "; Message: " +:+ py_str err)
                 err st))
  /\ (assoc "status" response = None ->
      create_invoice (PDict response)
      = Raise (CreateInvoiceException
                 ("Unexpected error. Code: " +:+ "0" +:+ "; Message: " +:+ py_str err)
                 err (PInt 0)))
  /\ (py_eq_int st' 422 = false -> py_eq_int st' 200 = true ->
      assoc "data" response = None ->
      get_balance (PDict response) = Raise (InvalidResponseException (Some "No 'data' field"))
      /\ payoff (PDict response) = Raise (InvalidResponseException (Some "No 'data' field")))
  /\ (assoc "status" response = Some (PInt 422) ->
      forall fields, assoc "error" response = Some (PDict fields) ->
      get_balance (PDict response)
      = Raise (InvalidParameterException
                 ("Invalid parameters: " +:+ join ", " (dict_keys fields))
                 (PStr (py_str (PDict fields))) (PInt 422))
      /\ payoff (PDict response)
         = Raise (InvalidParameterException
                    ("Invalid parameters: " +:+ join ", " (dict_keys fields)
                     +:+ "; Message: " +:+ py_str (PDict fields))
                    (PStr (py_str (PDict fields))) (PInt 422)))
  /\ (forall n, assoc "status" response = Some (PInt n) -> n <> 200 -> n <> 422 ->
      get_balance (PDict response)
      = Raise (APIError ("API error: " +:+ py_str err') (PStr (py_str err')) (PInt n))
      /\ payoff (PDict response)
         = Raise (APIError ("API error: " +:+ py_str err') (PStr (py_str err')) (PInt n))).
Proof.
  intros st st' err err'.
  repeat match goal with |- _ /\ _ => split end.
  - intros H200 Hdata. unfold create_invoice. cbn [py_get bind]. fold st.
    rewrite H200. unfold dict_get. rewrite Hdata. reflexivity.
  - intros H200 H422 fields Herr. unfold create_invoice. cbn [py_get bind].
    fold st err. rewrite H200, H422, Herr. reflexivity.
  - intros H200 H422 H401. unfold create_invoice. cbn [py_get bind].
    fold st err. rewrite H200, H422, H401. reflexivity.
  - intros H200 H422 H401. unfold create_invoice. cbn [py_get bind].
    fold st err. rewrite H200, H422, H401. reflexivity.
  - intros Hst.
    assert (Hs : st = PInt 0) by (unfold st, dict_get; rewrite Hst; reflexivity).
    unfold create_invoice. cbn [py_get bind]. fold st err. rewrite Hs. reflexivity.
  - intros H422 H200 Hdata. unfold get_balance, payoff. cbn [py_get bind].
    fold st'. rewrite H422, H200. cbn [negb py_getitem]. unfold dict_getitem.
    rewrite Hdata. split; reflexivity.
  - intros Hst fields Herr. unfold get_balance, payoff. cbn [py_get bind].
    unfold dict_get. rewrite Hst, Herr. split; reflexivity.
  - intros n Hst H200 H422.
    assert (Hs : forall v, dict_get response "status" v = PInt n)
      by (intros v; unfold dict_get; rewrite Hst; reflexivity).
    unfold get_balance, payoff. cbn [py_get bind].
    fold err'. rewrite !Hs. cbn [py_eq_int py_int bind].
    apply Z.eqb_neq in H200. apply Z.eqb_neq in H422. rewrite H200, H422.
    split; reflexivity.
Qed.

(** C2: two calls where an exception outside the documented kinds reaches
    the caller.  A webhook payload whose amount is [None] ends in the
    [TypeError] of [float]; a balance response without 'status' ends in the
    [TypeError] of [int]; a payoff response with status 422 and a str
    'error' ends in the [AttributeError] of [.keys()]. *)
Theorem raw_exceptions_escape (self : LavaBusinessAPI) (now : datetime) :
  let data := [("invoice_id", PStr "1"); ("status", PStr "success");
               ("amount", PNone); ("credited", PStr "9.5")] in
  let hdrs := [("Authorization", PStr "x")] in
  let σ : store := <[1%positive := data]> (<[2%positive := hdrs]> ∅) in
  snd (handle_webhook self 1%positive 2%positive now σ) = Raise TypeError
  /\ get_balance (PDict [("error", PStr "Internal error")]) = Raise TypeError
  /\ payoff (PDict [("status", PInt 422); ("error", PStr "bad")]) = Raise AttributeError
  /\ in_taxonomy TypeError = false /\ in_taxonomy AttributeError = false.
Proof.
  intros data hdrs σ. split; [|repeat split].
  rewrite (handle_webhook_run self _ _ now σ data hdrs); reflexivity.
Qed.

(** * Further properties *)

(** ** Inverting outcomes *)

Lemma bind_Return_inv {A B} (m : result A) (k : A -> result B) (b : B) :
  bind m k = Return b -> exists a, m = Return a /\ k a = Return b.
Proof. destruct m as [a|ex]; simpl; [eauto | discriminate]. Qed.

Lemma bind_Raise_inv {A B} (m : result A) (k : A -> result B) (ex : exn) :
  bind m k = Raise ex -> m = Raise ex \/ exists a, m = Return a /\ k a = Raise ex.
Proof. destruct m as [a|ex']; simpl; [eauto | intros [= ->]; auto]. Qed.

Lemma try_except_Return_inv {A} (body : result A) (h : exn -> result A) (a : A) :
  (forall ex, h ex <> Return a) -> try_except body h = Return a -> body = Return a.
Proof.
  intros Hh. destruct body as [a'|ex]; simpl; [trivial|].
  intros H. destruct (Hh ex H).
Qed.

Lemma dict_getitem_Return (d : pydict) (k : string) (v : pyval) :
  dict_getitem d k = Return v <-> assoc k d = Some v.
Proof.
  unfold dict_getitem. destruct (assoc k d); split; intros H; congruence.
Qed.

Lemma py_getitem_Return (o : pyval) (k : string) (v : pyval) :
  py_getitem o k = Return v -> exists d, o = PDict d /\ assoc k d = Some v.
Proof.
  destruct o; simpl; try discriminate.
  intros H. eexists. split; [reflexivity|]. apply dict_getitem_Return. exact H.
Qed.

(** ** Responses to [create_invoice] *)

(** X1: [create_invoice] returns an invoice exactly for a JSON object whose
    status compares equal to 200 and whose 'data' is an object with the six
    required keys; the record holds those values as received, the defaults
    "Merchant" and "Comment", and empty lists for absent or null service
    lists. *)
Theorem create_invoice_returns_iff (response_json : pyval) (info : InvoiceInfo.t) :
  create_invoice response_json = Return info <->
  exists response data id amount expired status shop_id url,
    response_json = PDict response
    /\ py_eq_int (dict_get response "status" (PInt 0)) 200 = true
    /\ assoc "data" response = Some (PDict data)
    /\ assoc "id" data = Some id /\ assoc "amount" data = Some amount
    /\ assoc "expired" data = Some expired /\ assoc "status" data = Some status
    /\ assoc "shop_id" data = Some shop_id /\ assoc "url" data = Some url
    /\ info = {| InvoiceInfo.invoice_id := id;
                 InvoiceInfo.amount := amount;
                 InvoiceInfo.expired := expired;
                 InvoiceInfo.status := status;
                 InvoiceInfo.shop_id := shop_id;
                 InvoiceInfo.merchant_name := dict_get data "merchantName" (PStr "Merchant");
                 InvoiceInfo.url := url;
                 InvoiceInfo.comment := dict_get data "comment" (PStr "Comment");
                 InvoiceInfo.include_service :=
                   match assoc "include_service" data with
                   | None | Some PNone => PList []
                   | Some l => l
                   end;
                 InvoiceInfo.exclude_service :=
                   match assoc "exclude_service" data with
                   | None | Some PNone => PList []
                   | Some l => l
                   end |}.
Proof.
  split.
  - unfold create_invoice. intros H.
    apply try_except_Return_inv in H;
      [|intros ex; destruct (_ || _); discriminate].
    apply bind_Return_inv in H as (st & Hst & H).
    destruct response_json; try discriminate Hst.
    cbn [py_get] in Hst. injection Hst as <-.
    destruct (py_eq_int (dict_get d "status" (PInt 0)) 200) eqn:H200.
    + cbn [py_get bind] in H.
      destruct (assoc "data" d) as [v|] eqn:Hdata;
        unfold dict_get in H; rewrite Hdata in H; [|discriminate H].
      destruct (is_none v) eqn:Hnone; [discriminate H|].
      apply try_except_Return_inv in H;
        [|intros ex; destruct (is_KeyError ex); discriminate].
      apply bind_Return_inv in H as (id & Hid & H).
      apply py_getitem_Return in Hid as (data & -> & Hid).
      cbn [py_getitem py_get] in H.
      apply bind_Return_inv in H as (amount & Ham & H).
      apply bind_Return_inv in H as (expired & Hexp & H).
      apply bind_Return_inv in H as (status & Hstatus & H).
      apply bind_Return_inv in H as (shop_id & Hshop & H).
      apply bind_Return_inv in H as (merchant & [= <-] & H).
      apply bind_Return_inv in H as (url & Hurl & H).
      apply bind_Return_inv in H as (comment & [= <-] & H).
      apply bind_Return_inv in H as (incl & [= <-] & H).
      apply bind_Return_inv in H as (excl & [= <-] & H).
      apply dict_getitem_Return in Ham, Hexp, Hstatus, Hshop, Hurl.
      exists d, data, id, amount, expired, status, shop_id, url.
      repeat (split; [first [reflexivity | assumption]|]).
      injection H as <-. unfold dict_get.
      destruct (assoc "include_service" data) as [[]|];
        destruct (assoc "exclude_service" data) as [[]|]; reflexivity.
    + destruct (py_eq_int (dict_get d "status" (PInt 0)) 422).
      * cbn [py_get bind] in H.
        destruct (isinstance_dict (dict_get d "error" (PStr ""))); [|discriminate H].
        apply bind_Return_inv in H as (keys & _ & H). discriminate H.
      * destruct (py_eq_int (dict_get d "status" (PInt 0)) 401);
          cbn [py_get bind] in H; discriminate H.
  - intros (response & data & id & amount & expired & status & shop_id & url
            & -> & Hst & Hdata & Hid & Ham & Hexp & Hstatus & Hshop & Hurl & ->).
    apply create_invoice_maps_fields; assumption.
Qed.

(** X2: whatever [create_invoice] raises is an [InvalidResponseException]
    without a message, or one of [InvalidParameterException] (status 422
    with a dict 'error'), [InvalidSignatureException] (status 401) and
    [CreateInvoiceException] (any other status but 200); these three carry
    the status value of the response as their code. *)
Theorem create_invoice_raises (response_json : pyval) (ex : exn) :
  create_invoice response_json = Raise ex ->
  ex = InvalidResponseException None
  \/ exists response,
       response_json = PDict response
       /\ exn_code ex = Some (dict_get response "status" (PInt 0))
       /\ py_eq_int (dict_get response "status" (PInt 0)) 200 = false
       /\ ((is_InvalidParameterException ex = true
            /\ py_eq_int (dict_get response "status" (PInt 0)) 422 = true
            /\ isinstance_dict (dict_get response "error" (PStr "")) = true)
           \/ (is_InvalidSignatureException ex = true
               /\ py_eq_int (dict_get response "status" (PInt 0)) 422 = false
               /\ py_eq_int (dict_get response "status" (PInt 0)) 401 = true)
           \/ ((exists description message,
                  ex = CreateInvoiceException description message
                         (dict_get response "status" (PInt 0)))
               /\ py_eq_int (dict_get response "status" (PInt 0)) 422 = false
               /\ py_eq_int (dict_get response "status" (PInt 0)) 401 = false)).
Proof.
  unfold create_invoice.
  destruct response_json; try (intros [= <-]; left; reflexivity).
  cbn [py_get bind].
  destruct (py_eq_int (dict_get d "status" (PInt 0)) 200) eqn:H200.
  - intros H. left.
    destruct (is_none (dict_get d "data" PNone)); [injection H as <-; reflexivity|].
    match type of H with
    | try_except (try_except ?b ?h) _ = _ => destruct (try_except b h) as [|ex0] eqn:Hin
    end; [discriminate H|].
    assert (Hex0 : ex0 = InvalidResponseException
                           (Some "Error while reading data from dictionary")
                   \/ ex0 = TypeError).
    { revert Hin.
      match goal with
      | |- try_except ?b _ = _ -> _ => destruct b as [|ex1] eqn:Hb
      end; [discriminate|].
      assert (Hex1 : (exists k, ex1 = KeyError k) \/ ex1 = TypeError).
      { revert Hb.
        assert (Hg : forall k e, py_getitem (dict_get d "data" PNone) k = Raise e ->
                                 (exists k, e = KeyError k) \/ e = TypeError).
        { intros k e. destruct (dict_get d "data" PNone); simpl;
            try (intros [= <-]; right; reflexivity).
          intros He. left. eexists. exact (dict_getitem_raises _ _ _ He). }
        assert (Hp : forall k v e, py_get (dict_get d "data" PNone) k v = Raise e ->
                                   forall a, py_getitem (dict_get d "data" PNone) "id"
                                             = Return a -> False).
        { intros k v e. destruct (dict_get d "data" PNone); simpl; discriminate. }
        intros Hb.
        apply bind_Raise_inv in Hb as [Hb|(id & Hid & Hb)]; [eapply Hg; exact Hb|].
        apply bind_Raise_inv in Hb as [Hb|(? & _ & Hb)]; [eapply Hg; exact Hb|].
        apply bind_Raise_inv in Hb as [Hb|(? & _ & Hb)]; [eapply Hg; exact Hb|].
        apply bind_Raise_inv in Hb as [Hb|(? & _ & Hb)]; [eapply Hg; exact Hb|].
        apply bind_Raise_inv in Hb as [Hb|(? & _ & Hb)]; [eapply Hg; exact Hb|].
        apply bind_Raise_inv in Hb as [Hb|(? & _ & Hb)];
          [destruct (Hp _ _ _ Hb _ Hid)|].
        apply bind_Raise_inv in Hb as [Hb|(? & _ & Hb)]; [eapply Hg; exact Hb|].
        apply bind_Raise_inv in Hb as [Hb|(? & _ & Hb)];
          [destruct (Hp _ _ _ Hb _ Hid)|].
        apply bind_Raise_inv in Hb as [Hb|(? & _ & Hb)];
          [destruct (Hp _ _ _ Hb _ Hid)|].
        apply bind_Raise_inv in Hb as [Hb|(? & _ & Hb)];
          [destruct (Hp _ _ _ Hb _ Hid)|].
        discriminate Hb. }
      destruct Hex1 as [[k ->]| ->]; simpl; intros [= <-]; auto. }
    destruct Hex0 as [-> | ->]; simpl in H; injection H as <-; reflexivity.
  - destruct (py_eq_int (dict_get d "status" (PInt 0)) 422) eqn:H422.
    + destruct (isinstance_dict (dict_get d "error" (PStr ""))) eqn:Hdict.
      * destruct (dict_get d "error" (PStr "")) eqn:Herr; try discriminate Hdict.
        simpl. intros [= <-]. right. exists d.
        split; [reflexivity|]. split; [reflexivity|]. split; [exact H200|].
        left. split; [reflexivity|]. split; [exact H422|].
        rewrite Herr. reflexivity.
      * simpl. intros [= <-]. left. reflexivity.
    + destruct (py_eq_int (dict_get d "status" (PInt 0)) 401) eqn:H401.
      * simpl. intros [= <-]. right. exists d.
        split; [reflexivity|]. split; [reflexivity|]. split; [exact H200|].
        right. left. split; [reflexivity|]. split; [exact H422 | exact H401].
      * simpl. intros [= <-]. right. exists d.
        split; [reflexivity|]. split; [reflexivity|]. split; [exact H200|].
        right. right. split; [eauto|]. split; [exact H422 | exact H401].
Qed.

(** ** Malformed responses *)

(** X3: a decoded response that is not a JSON object (a list, a string, a
    number, null) makes [create_invoice] raise [InvalidResponseException],
    while [get_balance] and [payoff] let the [AttributeError] of [.get]
    out. *)
Theorem non_object_response (response_json : pyval) :
  isinstance_dict response_json = false ->
  create_invoice response_json = Raise (InvalidResponseException None)
  /\ get_balance response_json = Raise AttributeError
  /\ payoff response_json = Raise AttributeError.
Proof.
  intros Hnd. destruct response_json; try discriminate Hnd; repeat split.
Qed.

(** X4: on status 422 the three operations part ways when 'error' is not a
    dict.  [create_invoice] raises [InvalidResponseException], also when
    'error' is missing.  [get_balance] and [payoff] raise
    [InvalidParameterException] with an empty field list and the message
    "None" when 'error' is missing, and let the [AttributeError] of [.keys()]
    out when it is there but not a dict. *)
Theorem unprocessable_without_field_errors (response : pydict) :
  assoc "status" response = Some (PInt 422) ->
  (isinstance_dict (dict_get response "error" (PStr "")) = false ->
   create_invoice (PDict response) = Raise (InvalidResponseException None))
  /\ (assoc "error" response = None ->
      get_balance (PDict response)
      = Raise (InvalidParameterException "Invalid parameters: " (PStr "None") (PInt 422))
      /\ payoff (PDict response)
         = Raise (InvalidParameterException "Invalid parameters: ; Message: "
                    (PStr "None") (PInt 422)))
  /\ (forall v, assoc "error" response = Some v -> isinstance_dict v = false ->
      get_balance (PDict response) = Raise AttributeError
      /\ payoff (PDict response) = Raise AttributeError).
Proof.
  intros Hst.
  assert (Hs : forall v, dict_get response "status" v = PInt 422)
    by (intros v; unfold dict_get; rewrite Hst; reflexivity).
  split; [|split].
  - intros Hnd. unfold create_invoice. cbn [py_get bind]. rewrite Hs.
    cbn [py_eq_int Z.eqb Pos.eqb]. rewrite Hnd. reflexivity.
  - intros Herr. unfold get_balance, payoff. cbn [py_get bind]. rewrite !Hs.
    unfold dict_get. rewrite Herr. split; reflexivity.
  - intros v Herr Hnd. unfold get_balance, payoff. cbn [py_get bind]. rewrite !Hs.
    unfold dict_get. rewrite Herr.
    destruct v; try discriminate Hnd; split; reflexivity.
Qed.

(** ** Responses to [get_balance] and [payoff] *)

(** X5: [get_balance] returns a value exactly for a JSON object whose
    status compares equal to 200 (and not to 422) and whose 'data' is an
    object with a 'balance' key; it returns that value as received, of
    whatever JSON type. *)
Theorem get_balance_returns_iff (response_json : pyval) (balance : pyval) :
  get_balance response_json = Return balance <->
  exists response data,
    response_json = PDict response
    /\ py_eq_int (dict_get response "status" (PStr "error")) 422 = false
    /\ py_eq_int (dict_get response "status" (PStr "error")) 200 = true
    /\ assoc "data" response = Some (PDict data)
    /\ assoc "balance" data = Some balance.
Proof.
  split.
  - unfold get_balance. intros H.
    apply bind_Return_inv in H as (st & Hst & H).
    destruct response_json; try discriminate Hst.
    cbn [py_get] in Hst. injection Hst as <-.
    destruct (py_eq_int (dict_get d "status" (PStr "error")) 422) eqn:H422.
    { cbn [py_get bind] in H.
      apply bind_Return_inv in H as (keys & _ & H).
      apply bind_Return_inv in H as (code & _ & H). discriminate H. }
    destruct (py_eq_int (dict_get d "status" (PStr "error")) 200) eqn:H200;
      cbn [negb py_get bind] in H;
      [|apply bind_Return_inv in H as (code & _ & H); discriminate H].
    apply bind_Return_inv in H as (data & Hdata & H).
    apply try_except_Return_inv in Hdata;
      [|intros ex; destruct (is_KeyError ex); discriminate].
    apply dict_getitem_Return in Hdata.
    apply bind_Return_inv in H as (v & Hv & [= <-]).
    apply try_except_Return_inv in Hv;
      [|intros ex; destruct (is_KeyError ex); discriminate].
    apply py_getitem_Return in Hv as (dd & -> & Hv).
    exists d, dd. auto.
  - intros (response & data & -> & H422 & H200 & Hdata & Hbal).
    unfold get_balance. cbn [py_get bind]. rewrite H422, H200.
    cbn [negb py_getitem]. unfold dict_getitem. rewrite Hdata.
    cbn [try_except bind py_getitem]. unfold dict_getitem. rewrite Hbal. reflexivity.
Qed.

(** X6: [payoff] returns exactly for a JSON object whose status compares
    equal to 200 (and not to 422) and whose 'data' is an object with a
    'payoff_id' key; the result is [str] of that value. *)
Theorem payoff_returns_iff (response_json : pyval) (payoff_id : string) :
  payoff response_json = Return payoff_id <->
  exists response data v,
    response_json = PDict response
    /\ py_eq_int (dict_get response "status" (PStr "error")) 422 = false
    /\ py_eq_int (dict_get response "status" (PStr "error")) 200 = true
    /\ assoc "data" response = Some (PDict data)
    /\ assoc "payoff_id" data = Some v
    /\ payoff_id = py_str v.
Proof.
  split.
  - unfold payoff. intros H.
    apply bind_Return_inv in H as (st & Hst & H).
    destruct response_json; try discriminate Hst.
    cbn [py_get] in Hst. injection Hst as <-.
    destruct (py_eq_int (dict_get d "status" (PStr "error")) 422) eqn:H422.
    { cbn [py_get bind] in H.
      apply bind_Return_inv in H as (keys & _ & H).
      apply bind_Return_inv in H as (code & _ & H). discriminate H. }
    destruct (py_eq_int (dict_get d "status" (PStr "error")) 200) eqn:H200;
      cbn [negb py_get bind] in H;
      [|apply bind_Return_inv in H as (code & _ & H); discriminate H].
    apply bind_Return_inv in H as (data & Hdata & H).
    apply try_except_Return_inv in Hdata;
      [|intros ex; destruct (is_KeyError ex); discriminate].
    apply dict_getitem_Return in Hdata.
    apply bind_Return_inv in H as (s & Hs & [= <-]).
    apply try_except_Return_inv in Hs;
      [|intros ex; destruct (is_KeyError ex); discriminate].
    apply bind_Return_inv in Hs as (v & Hv & [= <-]).
    apply py_getitem_Return in Hv as (dd & -> & Hv).
    exists d, dd, v. auto 7.
  - intros (response & data & v & -> & H422 & H200 & Hdata & Hid & ->).
    unfold payoff. cbn [py_get bind]. rewrite H422, H200.
    cbn [negb py_getitem]. unfold dict_getitem. rewrite Hdata.
    cbn [try_except bind py_getitem]. unfold dict_getitem. rewrite Hid. reflexivity.
Qed.

(** X7: a status-200 response whose 'data' is there but is not an object
    (null included) makes [get_balance] and [payoff] let a [TypeError] out;
    [create_invoice] raises [InvalidResponseException]. *)
Theorem data_not_an_object (response : pydict) (v : pyval) :
  assoc "status" response = Some (PInt 200) ->
  assoc "data" response = Some v ->
  isinstance_dict v = false ->
  get_balance (PDict response) = Raise TypeError
  /\ payoff (PDict response) = Raise TypeError
  /\ create_invoice (PDict response) = Raise (InvalidResponseException None).
Proof.
  intros Hst Hdata Hnd.
  assert (Hs : forall d, dict_get response "status" d = PInt 200)
    by (intros d; unfold dict_get; rewrite Hst; reflexivity).
  unfold get_balance, payoff, create_invoice. cbn [py_get bind]. rewrite !Hs.
  cbn [py_eq_int Z.eqb Pos.eqb negb py_getitem]. unfold dict_getitem, dict_get.
  rewrite Hdata.
  destruct v; try discriminate Hnd; repeat split.
Qed.

(** ** Header names *)

Lemma assoc_dict_setitem (d : pydict) (k k' : string) (v : pyval) :
  assoc k (dict_setitem d k' v) = if String.eqb k k' then Some v else assoc k d.
Proof.
  induction d as [|[k0 v0] d IH]; simpl.
  - reflexivity.
  - destruct (String.eqb k' k0) eqn:Hk'; simpl.
    + apply String.eqb_eq in Hk'. subst k0.
      destruct (String.eqb k k'); reflexivity.
    + rewrite IH. destruct (String.eqb k k0) eqn:Hk; [|reflexivity].
      apply String.eqb_eq in Hk. subst k0.
      rewrite String.eqb_sym, Hk'. reflexivity.
Qed.

Lemma dict_keys_setitem (d : pydict) (k : string) (v : pyval) :
  dict_keys (dict_setitem d k v)
  = if dict_contains d k then dict_keys d else dict_keys d ++ [k].
Proof.
  unfold dict_contains, dict_keys.
  induction d as [|[k0 v0] d IH]; simpl; [reflexivity|].
  destruct (String.eqb k k0); simpl; [reflexivity|].
  rewrite IH. destruct (existsb (String.eqb k) (map fst d)); reflexivity.
Qed.

Lemma dict_contains_assoc (d : pydict) (k : string) :
  dict_contains d k = match assoc k d with Some _ => true | None => false end.
Proof.
  unfold dict_contains, dict_keys.
  induction d as [|[k0 v0] d IH]; simpl; [reflexivity|].
  destruct (String.eqb k k0); simpl; [reflexivity | exact IH].
Qed.

Lemma dict_contains_In (d : pydict) (k : string) :
  dict_contains d k = true <-> In k (dict_keys d).
Proof.
  unfold dict_contains. rewrite existsb_exists. split.
  - intros (x & Hin & Heq). apply String.eqb_eq in Heq. subst x. exact Hin.
  - intros Hin. exists k. split; [exact Hin | apply String.eqb_refl].
Qed.

Lemma assoc_app (d1 d2 : pydict) (k : string) :
  assoc k (d1 ++ d2) = match assoc k d1 with Some v => Some v | None => assoc k d2 end.
Proof.
  induction d1 as [|[k0 v0] d1 IH]; simpl; [reflexivity|].
  destruct (String.eqb k k0); [reflexivity | exact IH].
Qed.

Lemma fold_setitem_lookup (kvs : pydict) : forall (d : pydict) (k : string),
  assoc k (fold_left (fun d kv => dict_setitem d (str_lower (fst kv)) (snd kv)) kvs d)
  = match assoc k (rev (map (fun kv => (str_lower (fst kv), snd kv)) kvs)) with
    | Some v => Some v
    | None => assoc k d
    end.
Proof.
  induction kvs as [|[k0 v0] kvs IH]; intros d k; simpl; [reflexivity|].
  rewrite IH, assoc_app, assoc_dict_setitem. simpl.
  destruct (assoc k (rev (map (fun kv => (str_lower (fst kv), snd kv)) kvs)));
    [reflexivity|].
  destruct (String.eqb k (str_lower k0)); reflexivity.
Qed.

Lemma fold_setitem_keys (kvs : pydict) : forall (d : pydict),
  NoDup (dict_keys d) ->
  NoDup (dict_keys
           (fold_left (fun d kv => dict_setitem d (str_lower (fst kv)) (snd kv)) kvs d)).
Proof.
  induction kvs as [|[k0 v0] kvs IH]; intros d Hd; simpl; [exact Hd|].
  apply IH. rewrite dict_keys_setitem.
  destruct (dict_contains d (str_lower k0)) eqn:Hc; [exact Hd|].
  apply NoDup_app. split; [exact Hd|]. split.
  - intros x Hx Hx'. apply list_elem_of_In in Hx, Hx'.
    destruct Hx' as [<-|[]].
    apply dict_contains_In in Hx. congruence.
  - apply NoDup_cons. split; [intros H; inversion H | apply NoDup_nil_2].
Qed.

Lemma assoc_In_lowered (kvs : pydict) (k : string) :
  (exists v, assoc k (rev (map (fun kv => (str_lower (fst kv), snd kv)) kvs)) = Some v)
  <-> exists kv, In kv kvs /\ str_lower (fst kv) = k.
Proof.
  induction kvs as [|[k0 v0] kvs IH]; simpl.
  - split; [intros [v H]; discriminate | intros (kv & [] & _)].
  - rewrite assoc_app. simpl. split.
    + intros [v H].
      destruct (assoc k (rev (map (fun kv => (str_lower (fst kv), snd kv)) kvs))) eqn:Ha.
      * destruct (proj1 IH (ex_intro _ _ eq_refl)) as (kv & Hin & Hk). eauto.
      * destruct (String.eqb k (str_lower k0)) eqn:Hk; [|discriminate].
        apply String.eqb_eq in Hk. exists (k0, v0). auto.
    + intros (kv & [<-|Hin] & Hk).
      * simpl in Hk. subst k. rewrite String.eqb_refl.
        destruct (assoc _ _); eauto.
      * destruct (proj2 IH (ex_intro _ kv (conj Hin Hk))) as [v ->]. eauto.
Qed.

(** X8: the header check of [handle_webhook] is insensitive to case and to
    nothing else: the call raises the missing-header exception exactly when
    no header name lowercases to "authorization". *)
Theorem handle_webhook_header_any_case (self : LavaBusinessAPI)
    (received_data headers : loc) (now : datetime) (σ : store) (data hdrs : pydict) :
  σ !! received_data = Some data ->
  σ !! headers = Some hdrs ->
  (snd (handle_webhook self received_data headers now σ)
   = Raise (InvalidWebhookSignatureException "No 'Authorization' header")
   <-> forall k v, In (k, v) hdrs -> str_lower k <> "authorization").
Proof.
  intros Hdata Hhdrs.
  rewrite (handle_webhook_run self _ _ now σ data hdrs Hdata Hhdrs). cbn [snd].
  rewrite dict_contains_assoc. unfold lowered_headers.
  rewrite fold_setitem_lookup. simpl.
  destruct (assoc "authorization"
              (rev (map (fun kv => (str_lower (fst kv), snd kv)) hdrs))) as [v|] eqn:Ha.
  - destruct (proj1 (assoc_In_lowered hdrs "authorization") (ex_intro _ v Ha))
      as ([k0 v0] & Hin & Hk).
    split.
    + intros H. apply webhook_outcome_raises in H.
      destruct H as [H|[H|[H|H]]]; discriminate H.
    + intros Hno. destruct (Hno k0 v0 Hin Hk).
  - split; [|reflexivity].
    intros _ k v Hin Hk.
    destruct (proj2 (assoc_In_lowered hdrs "authorization")
                (ex_intro _ (k, v) (conj Hin Hk))) as [v' Hv'].
    congruence.
Qed.

(** X9: the lowercased copy that [handle_webhook] builds has no duplicate
    names, has a name exactly when some header lowercases to it, and when
    several headers lowercase to the same name it keeps the value of the
    last one. *)
Theorem handle_webhook_lowered_copy (self : LavaBusinessAPI)
    (received_data headers : loc) (now : datetime) (σ : store) (data hdrs : pydict) :
  σ !! received_data = Some data ->
  σ !! headers = Some hdrs ->
  exists lowered,
    fst (handle_webhook self received_data headers now σ) !! fresh (dom σ) = Some lowered
    /\ NoDup (dict_keys lowered)
    /\ (forall k, In k (dict_keys lowered)
                  <-> exists kv, In kv hdrs /\ str_lower (fst kv) = k)
    /\ (forall k, assoc k lowered
                  = assoc k (rev (map (fun kv => (str_lower (fst kv), snd kv)) hdrs))).
Proof.
  intros Hdata Hhdrs.
  rewrite (handle_webhook_run self _ _ now σ data hdrs Hdata Hhdrs). cbn [fst].
  exists (lowered_headers hdrs).
  assert (Hlook : forall k, assoc k (lowered_headers hdrs)
                            = assoc k (rev (map (fun kv => (str_lower (fst kv), snd kv))
                                              hdrs))).
  { intros k. unfold lowered_headers. rewrite fold_setitem_lookup.
    destruct (assoc k _); reflexivity. }
  split; [apply lookup_insert_eq|]. split; [|split; [|exact Hlook]].
  - apply fold_setitem_keys. apply NoDup_nil_2.
  - intros k. rewrite <- dict_contains_In, dict_contains_assoc, Hlook.
    rewrite <- assoc_In_lowered.
    destruct (assoc k _); split; intros H; eauto; try discriminate.
    destruct H as [v H]. discriminate.
Qed.




(** X11: when [handle_webhook] returns a record, a header lowercasing to
    "authorization" was there, the payload had invoice_id, status, amount
    and credited, the record holds invoice_id and status as received,
    [float] of amount and of credited, order_id or "" and custom_field or
    [None], and [payed] says whether the status is the str "success". *)
Theorem handle_webhook_returns (self : LavaBusinessAPI)
    (received_data headers : loc) (now : datetime) (σ : store) (data hdrs : pydict)
    (info : SuccessfulInvoiceInfo.t) :
  σ !! received_data = Some data ->
  σ !! headers = Some hdrs ->
  snd (handle_webhook self received_data headers now σ) = Return info ->
  (exists k v, In (k, v) hdrs /\ str_lower k = "authorization")
  /\ assoc "invoice_id" data = Some (SuccessfulInvoiceInfo.invoice_id info)
  /\ assoc "status" data = Some (SuccessfulInvoiceInfo.status info)
  /\ (exists am, assoc "amount" data = Some am
                 /\ py_float am = Return (SuccessfulInvoiceInfo.amount info))
  /\ (exists cr, assoc "credited" data = Some cr
                 /\ py_float cr = Return (SuccessfulInvoiceInfo.credited info))
  /\ SuccessfulInvoiceInfo.order_id info = dict_get data "order_id" (PStr "")
  /\ SuccessfulInvoiceInfo.custom_field info = dict_get data "custom_field" PNone
  /\ SuccessfulInvoiceInfo.payed info
     = py_eq_str (SuccessfulInvoiceInfo.status info) "success".
Proof.
  intros Hdata Hhdrs.
  rewrite (handle_webhook_run self _ _ now σ data hdrs Hdata Hhdrs). cbn [snd].
  destruct (dict_contains (lowered_headers hdrs) "authorization") eqn:Hauth;
    [|discriminate].
  intros H. split.
  { rewrite dict_contains_assoc in Hauth. unfold lowered_headers in Hauth.
    rewrite fold_setitem_lookup in Hauth. simpl in Hauth.
    destruct (assoc "authorization"
                (rev (map (fun kv => (str_lower (fst kv), snd kv)) hdrs))) as [v|] eqn:Ha;
      [|discriminate].
    destruct (proj1 (assoc_In_lowered hdrs "authorization") (ex_intro _ v Ha))
      as ([k0 v0] & Hin & Hk). eauto. }
  unfold webhook_outcome in H.
  apply try_except_Return_inv in H;
    [|intros e; destruct (is_KeyError e); discriminate].
  apply bind_Return_inv in H as (pay_time & _ & H).
  apply bind_Return_inv in H as (inv & Hinv & H).
  apply bind_Return_inv in H as (oid & [= <-] & H).
  apply bind_Return_inv in H as (st & Hst & H).
  apply bind_Return_inv in H as (st' & Hst' & H).
  apply bind_Return_inv in H as (a & Ha & H).
  apply bind_Return_inv in Ha as (am & Ham & Ha).
  apply bind_Return_inv in H as (c & Hc & H).
  apply bind_Return_inv in Hc as (cr & Hcr & Hc).
  apply bind_Return_inv in H as (cf & [= <-] & H).
  apply dict_getitem_Return in Hinv, Hst, Hst', Ham, Hcr.
  injection H as <-. cbn.
  assert (st' = st) by congruence. subst st'.
  repeat (split; [first [assumption | reflexivity | eauto]|]). reflexivity.
Qed.

(** ** Order ids *)

Lemma digits_exactly_length (n : nat) (s : string) :
  digits_exactly n s = true -> String.length s = n.
Proof.
  unfold digits_exactly. intros H. apply andb_true_iff in H as [H _].
  apply Nat.eqb_eq. exact H.
Qed.

Lemma string_app_inj (s1 : string) : forall (s2 t1 t2 : string),
  String.length s1 = String.length s2 ->
  s1 +:+ t1 = s2 +:+ t2 -> s1 = s2 /\ t1 = t2.
Proof.
  induction s1 as [|c s1 IH]; intros [|c2 s2] t1 t2 Hlen Heq; try discriminate Hlen.
  - split; [reflexivity | exact Heq].
  - change (String c (s1 +:+ t1) = String c2 (s2 +:+ t2)) in Heq.
    injection Heq as -> Heq. simpl in Hlen.
    destruct (IH s2 t1 t2 ltac:(lia) Heq) as [-> ->]. split; reflexivity.
Qed.

Lemma format_04d_parse (n : Z) :
  0 <= n <= 9999 -> parse_digits (format_0d 4 n) 0 = Some n.
Proof.
  intros Hn.
  assert (H : (match parse_digits (format_0d 4 n) 0 with
               | Some m => m =? n
               | None => false
               end) = true).
  { apply (bounded_check
             (fun k => match parse_digits (format_0d 4 k) 0 with
                       | Some m => m =? k
                       | None => false
                       end) 10000); [vm_compute; reflexivity | lia]. }
  destruct (parse_digits (format_0d 4 n) 0); [|discriminate].
  apply Z.eqb_eq in H. congruence.
Qed.

Lemma format_02d_parse (n : Z) :
  0 <= n <= 99 -> parse_digits (format_0d 2 n) 0 = Some n.
Proof.
  intros Hn.
  assert (H : (match parse_digits (format_0d 2 n) 0 with
               | Some m => m =? n
               | None => false
               end) = true).
  { apply (bounded_check
             (fun k => match parse_digits (format_0d 2 k) 0 with
                       | Some m => m =? k
                       | None => false
                       end) 100); [vm_compute; reflexivity | lia]. }
  destruct (parse_digits (format_0d 2 n) 0); [|discriminate].
  apply Z.eqb_eq in H. congruence.
Qed.

Lemma format_04d_inj (a b : Z) :
  0 <= a <= 9999 -> 0 <= b <= 9999 -> format_0d 4 a = format_0d 4 b -> a = b.
Proof.
  intros Ha Hb Heq. pose proof (format_04d_parse a Ha) as H.
  rewrite Heq, (format_04d_parse b Hb) in H. congruence.
Qed.

Lemma format_02d_inj (a b : Z) :
  0 <= a <= 99 -> 0 <= b <= 99 -> format_0d 2 a = format_0d 2 b -> a = b.
Proof.
  intros Ha Hb Heq. pose proof (format_02d_parse a Ha) as H.
  rewrite Heq, (format_02d_parse b Hb) in H. congruence.
Qed.

Lemma strftime_Ymd_digits (now : datetime) :
  clock_reading now -> digits_exactly 8 (strftime_Ymd now) = true.
Proof.
  intros (Hy & Hmo & Hd & _). unfold strftime_Ymd.
  apply (digits_exactly_app 4 4); [apply format_04d_digits; lia|].
  apply (digits_exactly_app 2 2); apply format_02d_digits; lia.
Qed.

Lemma strftime_HMS_digits (now : datetime) :
  clock_reading now -> digits_exactly 6 (strftime_HMS now) = true.
Proof.
  intros (_ & _ & _ & Hh & Hmi & Hs). unfold strftime_HMS.
  apply (digits_exactly_app 2 4); [apply format_02d_digits; lia|].
  apply (digits_exactly_app 2 2); apply format_02d_digits; lia.
Qed.

Lemma generate_random_order_id_matches (now : datetime) (g : rng) :
  clock_reading now ->
  matches_order_id_pattern (fst (generate_random_order_id now g)) = true.
Proof.
  intros Hclock. unfold generate_random_order_id.
  pose proof (randint_range 0 9999 g ltac:(lia)) as H1.
  destruct (randint 0 9999 g) as [r1 g1]. simpl in H1.
  pose proof (randint_range 0 9999 g1 ltac:(lia)) as H2.
  destruct (randint 0 9999 g1) as [r2 g2]. simpl in H2.
  cbn [fst]. apply order_id_shape.
  - apply strftime_Ymd_digits; exact Hclock.
  - apply format_04d_digits; lia.
  - apply strftime_HMS_digits; exact Hclock.
  - apply format_04d_digits; lia.
Qed.

(** X12: two generated order ids are equal only if they were made at the
    same date and second and with the same two draws: the id determines the
    year, month, day, hour, minute, second and both random numbers. *)
Theorem generate_random_order_id_injective (now1 now2 : datetime) (g1 g2 : rng) :
  clock_reading now1 ->
  clock_reading now2 ->
  fst (generate_random_order_id now1 g1) = fst (generate_random_order_id now2 g2) ->
  year now1 = year now2 /\ month now1 = month now2 /\ day now1 = day now2
  /\ hour now1 = hour now2 /\ minute now1 = minute now2 /\ second now1 = second now2
  /\ fst (randint 0 9999 g1) = fst (randint 0 9999 g2)
  /\ fst (randint 0 9999 (snd (randint 0 9999 g1)))
     = fst (randint 0 9999 (snd (randint 0 9999 g2))).
Proof.
  intros Hc1 Hc2. unfold generate_random_order_id.
  pose proof (randint_range 0 9999 g1 ltac:(lia)) as Ha1.
  destruct (randint 0 9999 g1) as [a1 g1']. cbn [fst snd] in *.
  pose proof (randint_range 0 9999 g1' ltac:(lia)) as Hb1.
  destruct (randint 0 9999 g1') as [b1 g1'']. cbn [fst snd] in *.
  pose proof (randint_range 0 9999 g2 ltac:(lia)) as Ha2.
  destruct (randint 0 9999 g2) as [a2 g2']. cbn [fst snd] in *.
  pose proof (randint_range 0 9999 g2' ltac:(lia)) as Hb2.
  destruct (randint 0 9999 g2') as [b2 g2'']. cbn [fst snd] in *.
  intros Heq.
  pose proof (digits_exactly_length _ _ (strftime_Ymd_digits now1 Hc1)) as Ld1.
  pose proof (digits_exactly_length _ _ (strftime_Ymd_digits now2 Hc2)) as Ld2.
  pose proof (digits_exactly_length _ _ (strftime_HMS_digits now1 Hc1)) as Lt1.
  pose proof (digits_exactly_length _ _ (strftime_HMS_digits now2 Hc2)) as Lt2.
  pose proof (digits_exactly_length _ _ (format_04d_digits a1 Ha1)) as La1.
  pose proof (digits_exactly_length _ _ (format_04d_digits a2 Ha2)) as La2.
  apply string_app_inj in Heq as [Hdate Heq]; [|congruence].
  apply (string_app_inj "-" "-") in Heq as [_ Heq]; [|reflexivity].
  apply string_app_inj in Heq as [Hr1 Heq]; [|congruence].
  apply (string_app_inj "-" "-") in Heq as [_ Heq]; [|reflexivity].
  apply string_app_inj in Heq as [Htime Heq]; [|congruence].
  apply (string_app_inj "-" "-") in Heq as [_ Hr2]; [|reflexivity].
  destruct Hc1 as (Hy1 & Hmo1 & Hd1 & Hh1 & Hmi1 & Hs1).
  destruct Hc2 as (Hy2 & Hmo2 & Hd2 & Hh2 & Hmi2 & Hs2).
  assert (L4 : forall n, 0 <= n <= 9999 -> String.length (format_0d 4 n) = 4%nat)
    by (intros n Hn; apply digits_exactly_length, format_04d_digits; exact Hn).
  assert (L2 : forall n, 0 <= n <= 99 -> String.length (format_0d 2 n) = 2%nat)
    by (intros n Hn; apply digits_exactly_length, format_02d_digits; exact Hn).
  unfold strftime_Ymd in Hdate. unfold strftime_HMS in Htime.
  apply string_app_inj in Hdate as [Hy Hdate]; [|rewrite !L4; lia].
  apply string_app_inj in Hdate as [Hmo Hd]; [|rewrite !L2; lia].
  apply string_app_inj in Htime as [Hh Htime]; [|rewrite !L2; lia].
  apply string_app_inj in Htime as [Hmi Hs]; [|rewrite !L2; lia].
  apply format_04d_inj in Hy, Hr1, Hr2; [|lia..].
  apply format_02d_inj in Hmo, Hd, Hh, Hmi, Hs; [|lia..].
  repeat split; assumption.
Qed.

(** ** Requests *)

Lemma assoc_filter_given (l : pydict) (k : string) (v : pyval) :
  NoDup (dict_keys l) -> In (k, v) l ->
  assoc k (List.filter given l) = if is_none v then None else Some v.
Proof.
  induction l as [|[k0 v0] l IH]; intros Hnd Hin; [destruct Hin|].
  simpl in Hnd. apply NoDup_cons in Hnd as [Hk0 Hnd].
  assert (Hfresh : forall v', In (k0, v') l -> False).
  { intros v' Hin'. apply Hk0. apply list_elem_of_In.
    change k0 with (fst (k0, v')). apply in_map. exact Hin'. }
  assert (Hskip : assoc k0 (List.filter given l) = None).
  { clear -Hfresh. induction l as [|[k1 v1] l IH]; [reflexivity|].
    simpl. assert (Hne : String.eqb k0 k1 = false).
    { apply String.eqb_neq. intros <-. apply (Hfresh v1). left. reflexivity. }
    destruct (given (k1, v1)); simpl; rewrite ?Hne;
      apply IH; intros v' Hin; apply (Hfresh v'); right; exact Hin. }
  destruct Hin as [[= -> ->]|Hin].
  - simpl. unfold given at 1. simpl.
    destruct (is_none v); simpl; [exact Hskip|].
    rewrite String.eqb_refl. reflexivity.
  - assert (Hne : String.eqb k k0 = false).
    { apply String.eqb_neq. intros ->. exact (Hfresh v Hin). }
    simpl. destruct (given (k0, v0)); simpl; rewrite ?Hne; apply IH; assumption.
Qed.

Lemma dict_contains_app (d1 d2 : pydict) (k : string) :
  dict_contains (d1 ++ d2) k = dict_contains d1 k || dict_contains d2 k.
Proof. unfold dict_contains, dict_keys. rewrite map_app. apply existsb_app. Qed.

Lemma dict_contains_filter_given (l : pydict) (k : string) :
  dict_contains l k = false -> dict_contains (List.filter given l) k = false.
Proof.
  unfold dict_contains, dict_keys.
  induction l as [|[k0 v0] l IH]; simpl; [trivial|].
  intros H. apply orb_false_iff in H as [Hk Hl].
  destruct (given (k0, v0)); simpl; rewrite ?Hk; apply IH; exact Hl.
Qed.

Lemma dict_setitem_new (d : pydict) (k : string) (v : pyval) :
  dict_contains d k = false -> dict_setitem d k v = d ++ [(k, v)].
Proof.
  unfold dict_contains, dict_keys.
  induction d as [|[k0 v0] d IH]; simpl; [reflexivity|].
  intros H. apply orb_false_iff in H as [Hk Hd].
  rewrite Hk, (IH Hd). reflexivity.
Qed.

(** An optional argument whose name is not in the fields yet goes to the
    end, when it was given. *)
Lemma set_if_given_new (d : pydict) (k : string) (v : pyval) :
  dict_contains d k = false ->
  set_if_given d k v = d ++ List.filter given [(k, v)].
Proof.
  intros Hk. unfold set_if_given, given. simpl.
  destruct (is_none v); simpl; [rewrite app_nil_r; reflexivity|].
  apply dict_setitem_new. exact Hk.
Qed.

Ltac name_is_new :=
  rewrite ?dict_contains_app;
  repeat (rewrite dict_contains_filter_given by reflexivity);
  reflexivity.

Lemma invoice_fields_eq (self : LavaBusinessAPI)
    (amount shop_id order_id expire custom_field comment webhook_url fail_url
     success_url include_service exclude_service : pyval) (now : datetime) (g : rng) :
  req_json (fst (create_invoice_request self amount shop_id order_id expire custom_field
                   comment webhook_url fail_url success_url include_service
                   exclude_service now g))
  = [("orderId", fst (order_id_or_random order_id now g)); ("shopId", shop_id);
     ("sum", amount)]
    ++ List.filter given (invoice_options expire custom_field comment webhook_url fail_url
                            success_url include_service exclude_service).
Proof.
  unfold create_invoice_request, invoice_options.
  destruct (order_id_or_random order_id now g) as [oid g'].
  cbn [fst snd signed_post req_json].
  repeat match goal with
         | |- context [set_if_given ?d ?k ?v] =>
             lazymatch d with
             | context [set_if_given] => fail
             | _ => rewrite (set_if_given_new d k v) by name_is_new
             end
         end.
  rewrite <- !app_assoc, <- !List.filter_app. reflexivity.
Qed.

(** X13: the fields [create_invoice] sends are orderId, shopId and sum, in
    this order, followed by one entry for each optional argument that is
    not [None], in the fixed order customFields, comment, hookUrl, failUrl,
    successUrl, expire, includeService, excludeService; so an optional name
    is in the body exactly when its argument was given, with that value,
    and no name occurs twice. *)
Theorem create_invoice_request_fields (self : LavaBusinessAPI)
    (amount shop_id order_id expire custom_field comment webhook_url fail_url
     success_url include_service exclude_service : pyval) (now : datetime) (g : rng) :
  let fields :=
    req_json (fst (create_invoice_request self amount shop_id order_id expire
                     custom_field comment webhook_url fail_url success_url
                     include_service exclude_service now g)) in
  let options := invoice_options expire custom_field comment webhook_url fail_url
                   success_url include_service exclude_service in
  fields = [("orderId", fst (order_id_or_random order_id now g)); ("shopId", shop_id);
            ("sum", amount)] ++ List.filter given options
  /\ assoc "shopId" fields = Some shop_id
  /\ assoc "sum" fields = Some amount
  /\ (forall k v, In (k, v) options ->
                  assoc k fields = if is_none v then None else Some v)
  /\ NoDup (dict_keys fields).
Proof.
  intros fields options.
  assert (Heq : fields
                = [("orderId", fst (order_id_or_random order_id now g));
                   ("shopId", shop_id); ("sum", amount)] ++ List.filter given options)
    by apply invoice_fields_eq.
  assert (Hnd : NoDup (dict_keys options)).
  { unfold options, invoice_options, dict_keys. cbn [map fst].
    repeat (apply NoDup_cons; split;
            [rewrite list_elem_of_In; simpl; intuition discriminate|]).
    apply NoDup_nil_2. }
  split; [exact Heq|]. rewrite Heq.
  split; [reflexivity|]. split; [reflexivity|]. split.
  - intros k v Hin. rewrite assoc_app.
    rewrite (assoc_filter_given options k v Hnd Hin).
    unfold options, invoice_options in Hin. simpl in Hin.
    repeat (destruct Hin as [[= <- <-]|Hin]; [reflexivity|]). destruct Hin.
  - unfold dict_keys. rewrite map_app. apply NoDup_app. split; [|split].
    + cbn [map fst].
      repeat (apply NoDup_cons; split;
              [rewrite list_elem_of_In; simpl; intuition discriminate|]).
      apply NoDup_nil_2.
    + intros x Hx Hx'. apply list_elem_of_In in Hx, Hx'.
      apply in_map_iff in Hx' as ([k v] & <- & Hin).
      apply filter_In in Hin as [Hin _].
      unfold options, invoice_options in Hin. simpl in Hin, Hx.
      repeat (destruct Hin as [[= <- <-]|Hin]; [simpl in Hx; intuition discriminate|]).
      destruct Hin.
    + clear Heq. induction options as [|[k v] l IH]; [apply NoDup_nil_2|].
      simpl in Hnd. apply NoDup_cons in Hnd as [Hk Hnd].
      simpl. destruct (given (k, v)); [|apply IH; exact Hnd].
      simpl. apply NoDup_cons. split; [|apply IH; exact Hnd].
      intros Hin. apply Hk. apply list_elem_of_In. apply list_elem_of_In in Hin.
      apply in_map_iff in Hin as (kv & Hkv & Hin).
      apply filter_In in Hin as [Hin _].
      apply in_map_iff. eauto.
Qed.

(** X14: [create_invoice] and [payoff] use the caller's order id when one
    is given and leave the random generator alone; with [None] they put a
    generated id into orderId, which matches [\d{8}-\d{4}-\d{6}-\d{4}], and
    the generator has moved on by the two draws of the id. *)
Theorem request_order_id (self : LavaBusinessAPI)
    (amount shop_id order_id expire custom_field comment webhook_url fail_url
     success_url include_service exclude_service service wallet hook_url : pyval)
    (now : datetime) (g : rng) :
  let invoice := create_invoice_request self amount shop_id order_id expire custom_field
                   comment webhook_url fail_url success_url include_service
                   exclude_service now g in
  let transfer := payoff_request self shop_id amount service wallet order_id hook_url
                    now g in
  (is_none order_id = false ->
   assoc "orderId" (req_json (fst invoice)) = Some order_id
   /\ snd invoice = g /\ snd transfer = g
   /\ forall r, fst transfer = Return r -> assoc "orderId" (req_json r) = Some order_id)
  /\ (order_id = PNone -> clock_reading now ->
      let generated := generate_random_order_id now g in
      matches_order_id_pattern (fst generated) = true
      /\ assoc "orderId" (req_json (fst invoice)) = Some (PStr (fst generated))
      /\ snd invoice = snd generated /\ snd transfer = snd generated
      /\ forall r, fst transfer = Return r ->
                   assoc "orderId" (req_json r) = Some (PStr (fst generated))).
Proof.
  intros invoice transfer.
  assert (Hinv : assoc "orderId" (req_json (fst invoice))
                 = Some (fst (order_id_or_random order_id now g)))
    by (unfold invoice; rewrite invoice_fields_eq; reflexivity).
  assert (Hsnd : snd invoice = snd (order_id_or_random order_id now g)
                 /\ snd transfer = snd (order_id_or_random order_id now g)).
  { unfold invoice, transfer, create_invoice_request, payoff_request.
    destruct (order_id_or_random order_id now g); split; reflexivity. }
  assert (Htr : forall r, fst transfer = Return r ->
                          assoc "orderId" (req_json r)
                          = Some (fst (order_id_or_random order_id now g))).
  { intros r. unfold transfer, payoff_request.
    destruct (order_id_or_random order_id now g) as [oid g']. cbn [fst].
    destruct service; try discriminate. cbn [py_add_str bind].
    intros [= <-]. unfold set_if_given. destruct (negb (is_none hook_url)); reflexivity. }
  destruct Hsnd as [Hs1 Hs2]. split.
  - intros Hgiven.
    assert (Ho : order_id_or_random order_id now g = (order_id, g))
      by (unfold order_id_or_random; rewrite Hgiven; reflexivity).
    rewrite Ho in *. auto.
  - intros -> Hclock generated.
    assert (Ho : order_id_or_random PNone now g = (PStr (fst generated), snd generated)).
    { unfold order_id_or_random, generated. cbn [is_none].
      destruct (generate_random_order_id now g); reflexivity. }
    rewrite Ho in *.
    split; [apply generate_random_order_id_matches; exact Hclock | auto].
Qed.

(** X15: [payoff] appends "_payoff" to a str service and sends orderId,
    shopId, amount, service and walletTo, then hookUrl when given; a service
    that is not a str ends the call with a [TypeError] before any request is
    made, after an order id may already have been drawn. *)
Theorem payoff_request_service (self : LavaBusinessAPI)
    (shop_id amount service wallet order_id hook_url : pyval)
    (now : datetime) (g : rng) :
  (forall s, service = PStr s ->
     exists r,
       fst (payoff_request self shop_id amount service wallet order_id hook_url now g)
       = Return r
       /\ req_json r
          = [("orderId", fst (order_id_or_random order_id now g)); ("shopId", shop_id);
             ("amount", amount); ("service", PStr (s +:+ "_payoff"));
             ("walletTo", wallet)]
            ++ List.filter given [("hookUrl", hook_url)])
  /\ ((forall s, service <> PStr s) ->
      fst (payoff_request self shop_id amount service wallet order_id hook_url now g)
      = Raise TypeError)
  /\ snd (payoff_request self shop_id amount service wallet order_id hook_url now g)
     = snd (order_id_or_random order_id now g).
Proof.
  unfold payoff_request.
  destruct (order_id_or_random order_id now g) as [oid g']. cbn [fst snd].
  split; [|split; [|reflexivity]].
  - intros s ->. cbn [py_add_str bind]. eexists. split; [reflexivity|].
    unfold set_if_given, given. cbn [signed_post req_json List.filter snd].
    destruct (is_none hook_url); reflexivity.
  - intros Hns. destruct service; try reflexivity.
    destruct (Hns s eq_refl).
Qed.

(** ** The signed body *)

Lemma printable_ascii_app (s t : string) :
  printable_ascii (s +:+ t) = printable_ascii s && printable_ascii t.
Proof. unfold printable_ascii. rewrite list_ascii_of_string_app. apply forallb_app. Qed.

Lemma json_escape_char_printable (c : ascii) :
  printable_ascii (json_escape_char c) = true.
Proof. destruct c as [[] [] [] [] [] [] [] []]; vm_compute; reflexivity. Qed.

Lemma json_string_printable (s : string) : printable_ascii (json_string s) = true.
Proof.
  unfold json_string.
  change (String double_quote (json_escape s +:+ String double_quote ""))
    with (String double_quote "" +:+ (json_escape s +:+ String double_quote "")).
  rewrite !printable_ascii_app.
  assert (H : printable_ascii (json_escape s) = true).
  { induction s as [|c s IH]; [reflexivity|].
    cbn [json_escape]. rewrite printable_ascii_app, json_escape_char_printable, IH.
    reflexivity. }
  rewrite H. reflexivity.
Qed.

Lemma digit_char_printable (n : Z) : in_range 32 126 (code_point (digit_char n)) = true.
Proof.
  unfold digit_char.
  pose proof (Z.mod_pos_bound n 10 ltac:(lia)) as Hb.
  destruct (n mod 10) as [|p|p]; [reflexivity | | lia].
  do 4 (destruct p as [p|p|]; try reflexivity); lia.
Qed.

Lemma decimal_digits_printable (fuel : nat) : forall (n : Z) (acc : string),
  printable_ascii acc = true -> printable_ascii (decimal_digits fuel n acc) = true.
Proof.
  induction fuel as [|fuel IH]; intros n acc Hacc; [exact Hacc|].
  assert (Hacc' : printable_ascii (String (digit_char n) acc) = true).
  { unfold printable_ascii in *. cbn [list_ascii_of_string forallb].
    rewrite digit_char_printable, Hacc. reflexivity. }
  cbn [decimal_digits]. destruct (n / 10 =? 0); [exact Hacc' | apply IH; exact Hacc'].
Qed.

Lemma str_of_int_printable (n : Z) : printable_ascii (str_of_int n) = true.
Proof.
  unfold str_of_int. destruct (n <? 0).
  - rewrite printable_ascii_app, decimal_digits_printable; reflexivity.
  - apply decimal_digits_printable. reflexivity.
Qed.

Lemma join_printable (sep : string) (parts : list string) :
  printable_ascii sep = true ->
  Forall (fun p => printable_ascii p = true) parts ->
  printable_ascii (join sep parts) = true.
Proof.
  intros Hsep Hparts. induction Hparts as [|p parts Hp Hparts IH]; [reflexivity|].
  destruct parts as [|q parts]; [exact Hp|].
  change (join sep (p :: q :: parts)) with (p +:+ sep +:+ join sep (q :: parts)).
  rewrite !printable_ascii_app, Hp, Hsep, IH. reflexivity.
Qed.

Lemma json_dumps_printable :
  (forall f, printable_ascii (str_of_other (PFloat f)) = true) ->
  forall o, printable_ascii (json_dumps o) = true.
Proof.
  intros Hfloat.
  assert (Hseq : forall l, Forall (fun o => printable_ascii (json_dumps o) = true) l ->
                           printable_ascii ("[" +:+ join ", " (map json_dumps l) +:+ "]")
                           = true).
  { intros l Hl. rewrite !printable_ascii_app, join_printable; [reflexivity..|].
    induction Hl; constructor; assumption. }
  apply pyval_nested_ind.
  - reflexivity.
  - intros []; reflexivity.
  - apply str_of_int_printable.
  - intros [s|[]| |s m e]; try reflexivity; apply Hfloat.
  - apply json_string_printable.
  - exact Hseq.
  - exact Hseq.
  - intros d Hd. cbn [json_dumps].
    rewrite !printable_ascii_app, join_printable; [reflexivity..|].
    induction Hd as [|[k v] d Hv Hd IH]; constructor; [|exact IH].
    rewrite !printable_ascii_app, json_string_printable. exact Hv.
Qed.

Lemma utf8_encode_printable (s : string) :
  printable_ascii s = true ->
  utf8_encode s = map code_point (list_ascii_of_string s).
Proof.
  unfold printable_ascii, utf8_encode.
  induction (list_ascii_of_string s) as [|c l IH]; [reflexivity|].
  cbn [forallb flat_map map]. intros H. apply andb_true_iff in H as [Hc Hl].
  rewrite (IH Hl). unfold utf8_char.
  unfold in_range in Hc. apply andb_true_iff in Hc as [_ Hc].
  apply Z.leb_le in Hc.
  replace (code_point c <? 128) with true by (symmetry; apply Z.ltb_lt; lia).
  reflexivity.
Qed.

(** X16: whatever values the fields hold (any characters in a str, nested
    lists and dicts), the body that is signed is printable ASCII, so its
    UTF-8 bytes are its characters, one byte each, and the Signature header
    is the HMAC over exactly these; this holds once [repr] of a float is
    printable ASCII. *)
Theorem signed_body_ascii (self : LavaBusinessAPI) (url : string) (fields : pydict) :
  (forall f, printable_ascii (str_of_other (PFloat f)) = true) ->
  let body := json_dumps (PDict fields) in
  printable_ascii body = true
  /\ utf8_encode body = map code_point (list_ascii_of_string body)
  /\ length (utf8_encode body) = String.length body
  /\ req_headers (signed_post self url fields)
     = [("Accept", "application/json");
        ("Signature",
         hex_of_bytes (SHA256.hmac (utf8_encode (secret_key self))
                         (map code_point (list_ascii_of_string body))))].
Proof.
  intros Hfloat body.
  pose proof (json_dumps_printable Hfloat (PDict fields)) as Hp. fold body in Hp.
  pose proof (utf8_encode_printable body Hp) as Hu.
  split; [exact Hp|]. split; [exact Hu|]. split.
  - rewrite Hu, length_map. clear. induction body; simpl; congruence.
  - unfold signed_post, generate_signature. cbn [req_headers]. fold body.
    rewrite Hu. reflexivity.
Qed.

End Embedding.

(** * Closed instances

    The theorems above at concrete calls, with [reference_runtime] for the
    library routines. *)

Lemma status_dispatch_witness :
  create_invoice (rt := reference_runtime)
    (PDict [("status", PInt 401); ("error", PStr "Unauthorized")])
  = Raise (InvalidSignatureException
             "Invalid signature. Code: 401; Message: Unauthorized"
             (PStr "Unauthorized") (PInt 401))
  /\ create_invoice (rt := reference_runtime)
       (PDict [("status", PInt 422); ("error", PDict [("sum", PStr "too small")])])
     = Raise (InvalidParameterException
                "Invalid parameters: sum; Code: 422; Message: <object>"
                (PStr "<object>") (PInt 422))
  /\ create_invoice (rt := reference_runtime) (PDict [("error", PStr "down")])
     = Raise (CreateInvoiceException "Unexpected error. Code: 0; Message: down"
                (PStr "down") (PInt 0))
  /\ get_balance (rt := reference_runtime)
       (PDict [("status", PInt 401); ("error", PStr "Unauthorized")])
     = Raise (APIError "API error: Unauthorized" (PStr "Unauthorized") (PInt 401))
  /\ payoff (rt := reference_runtime) (PDict [("status", PInt 200)])
     = Raise (InvalidResponseException (Some "No 'data' field")).
Proof.
  split; [|split; [|split; [|split]]].
  - apply (@status_dispatch reference_runtime
             [("status", PInt 401); ("error", PStr "Unauthorized")]); reflexivity.
  - exact (proj1 (proj2 (@status_dispatch reference_runtime
             [("status", PInt 422); ("error", PDict [("sum", PStr "too small")])]))
             eq_refl eq_refl [("sum", PStr "too small")] eq_refl).
  - apply (@status_dispatch reference_runtime [("error", PStr "down")]); reflexivity.
  - apply (@status_dispatch reference_runtime
             [("status", PInt 401); ("error", PStr "Unauthorized")] ); [reflexivity|lia|lia].
  - apply (@status_dispatch reference_runtime [("status", PInt 200)]); reflexivity.
Defined.

(** [get_balance] and [payoff] answer a 401 with the generic [APIError],
    not with [InvalidSignatureException]. *)
Lemma get_balance_401_is_APIError :
  get_balance (rt := reference_runtime)
    (PDict [("status", PInt 401); ("error", PStr "Unauthorized")])
  = Raise (APIError "API error: Unauthorized" (PStr "Unauthorized") (PInt 401))
  /\ payoff (rt := reference_runtime)
       (PDict [("status", PInt 401); ("error", PStr "Unauthorized")])
     = Raise (APIError "API error: Unauthorized" (PStr "Unauthorized") (PInt 401))
  /\ is_InvalidSignatureException
       (APIError "API error: Unauthorized" (PStr "Unauthorized") (PInt 401)) = false
  /\ exn_code (APIError "API error: Unauthorized" (PStr "Unauthorized") (PInt 401))
     = Some (PInt 401).
Proof. repeat split. Qed.

Lemma handle_webhook_authorization_header_witness :
  snd (handle_webhook (rt := reference_runtime) example_api 1%positive 2%positive
         example_now (example_store example_payload example_headers))
  = webhook_outcome (rt := reference_runtime) example_payload example_now
  /\ snd (handle_webhook (rt := reference_runtime) example_api 1%positive 2%positive
            example_now
            (example_store example_payload [("Content-Type", PStr "application/json")]))
     = Raise (InvalidWebhookSignatureException "No 'Authorization' header").
Proof.
  split.
  - apply (@handle_webhook_authorization_header reference_runtime example_api
             1%positive 2%positive example_now
             (example_store example_payload example_headers)
             example_payload example_headers); reflexivity.
  - apply (@handle_webhook_authorization_header reference_runtime example_api
             1%positive 2%positive example_now
             (example_store example_payload [("Content-Type", PStr "application/json")])
             example_payload [("Content-Type", PStr "application/json")]); reflexivity.
Defined.

Lemma generate_signature_hmac_sha256_hex_witness :
  Text.generate_signature [0x43A; 0x43B; 0x44E; 0x447]
    [0x20AC; 0x31; 0x30; 0x20; 0x1F600; 0x20; 0xE9]
  = Return "523ce717b651ccf27bfdeb4a086a1f26843f0ac2dd7a9fa83e7c127437b0d381"
  /\ Text.utf8_encode [0x20AC; 0x31; 0x30; 0x20; 0x1F600; 0x20; 0xE9]
     = Return [0xE2; 0x82; 0xAC; 0x31; 0x30; 0x20; 0xF0; 0x9F; 0x98; 0x80; 0x20;
               0xC3; 0xA9]
  /\ Text.generate_signature [0x43A; 0x43B; 0x44E; 0x447]
       [0x20AC; 0x31; 0x30; 0x20; 0x1F600; 0x20; 0xE9]
     = Return
         (hex_of_bytes
            (SHA256.hmac [0xD0; 0xBA; 0xD0; 0xBB; 0xD1; 0x8E; 0xD1; 0x87]
               [0xE2; 0x82; 0xAC; 0x31; 0x30; 0x20; 0xF0; 0x9F; 0x98; 0x80; 0x20;
                0xC3; 0xA9]))
  /\ Text.generate_signature (Text.of_string "secret") (Text.of_string "{}")
     = Return (generate_signature example_api "{}")
  /\ Text.generate_signature [0x6B; 0xDC00] [] = Raise UnicodeEncodeError.
Proof.
  destruct generate_signature_hmac_sha256_hex as (Hhex & Hknown & Hlatin & Hsur).
  split; [|split; [|split; [|split]]].
  - apply Hknown. unfold known_answers. cbn [In]. auto.
  - reflexivity.
  - destruct (Hhex [0x43A; 0x43B; 0x44E; 0x447]
                [0x20AC; 0x31; 0x30; 0x20; 0x1F600; 0x20; 0xE9] eq_refl eq_refl)
      as (key & msg & Hkey & Hmsg & _ & _ & _ & _ & Hsig & _).
    vm_compute in Hkey. vm_compute in Hmsg.
    injection Hkey as <-. injection Hmsg as <-. exact Hsig.
  - exact (Hlatin example_api "{}").
  - apply Hsur; reflexivity.
Defined.

(** A key or a string with a lone surrogate has no signature. *)
Lemma generate_signature_lone_surrogate :
  Text.generate_signature (Text.of_string "secret") [0x7B; 0xD800; 0x7D]
  = Raise UnicodeEncodeError
  /\ Text.generate_signature [0xDFFF] (Text.of_string "{}") = Raise UnicodeEncodeError
  /\ Text.is_str [0x7B; 0xD800; 0x7D] = true
  /\ Text.is_str [0xDFFF] = true.
Proof. repeat split. Qed.

Lemma handle_webhook_maps_payload_witness :
  exists info,
    snd (handle_webhook (rt := reference_runtime) example_api 1%positive 2%positive
           example_now
           (example_store
              (example_payload ++ [("payed", PStr "2024-01-02 03:04:05")])
              example_headers))
    = Return info
    /\ SuccessfulInvoiceInfo.payed info = true
    /\ SuccessfulInvoiceInfo.pay_time info
       = {| year := 2024; month := 1; day := 2; hour := 3; minute := 4; second := 5;
            microsecond := 0 |}
    /\ SuccessfulInvoiceInfo.amount info = S754_finite false 5629499534213120 (-49)
    /\ SuccessfulInvoiceInfo.credited info = S754_finite false 5348024557502464 (-49).
Proof.
  destruct (@handle_webhook_maps_payload reference_runtime example_api
              1%positive 2%positive example_now
              (example_store
                 (example_payload ++ [("payed", PStr "2024-01-02 03:04:05")])
                 example_headers)
              (example_payload ++ [("payed", PStr "2024-01-02 03:04:05")])
              example_headers eq_refl eq_refl eq_refl) as [Hmap _].
  { intros v Hv. vm_compute in Hv. exists "2024-01-02 03:04:05".
    injection Hv as <-. reflexivity. }
  destruct (Hmap (PStr "1") (PStr "success") (PStr "10.0") (PStr "9.5")
              (S754_finite false 5629499534213120 (-49))
              (S754_finite false 5348024557502464 (-49))
              eq_refl eq_refl eq_refl eq_refl eq_refl eq_refl)
    as (info & Hret & _ & _ & _ & Hpayed & Htime & Ham & Hcr).
  exists info. split; [exact Hret|]. split; [apply Hpayed; reflexivity|].
  split; [exact Htime|]. split; [exact Ham | exact Hcr].
Defined.

(** Payloads with all four keys that do not yield a record, and a payload
    without 'credited' that does not end in [InvalidResponseException]:
    what [float] and [strptime] raise is not caught. *)
Lemma handle_webhook_conversion_errors_escape_witness :
  snd (handle_webhook (rt := reference_runtime) example_api 1%positive 2%positive
         example_now
         (example_store
            [("invoice_id", PStr "1"); ("status", PStr "success");
             ("amount", PNone); ("credited", PStr "9.5")]
            example_headers))
  = Raise TypeError
  /\ snd (handle_webhook (rt := reference_runtime) example_api 1%positive 2%positive
            example_now
            (example_store
               [("invoice_id", PStr "1"); ("status", PStr "success"); ("amount", PList [])]
               example_headers))
     = Raise TypeError
  /\ snd (handle_webhook (rt := reference_runtime) example_api 1%positive 2%positive
            example_now
            (example_store
               [("invoice_id", PStr "1"); ("status", PStr "success");
                ("amount", PStr "10.0"); ("credited", PStr "9,5")]
               example_headers))
     = Raise ValueError
  /\ snd (handle_webhook (rt := reference_runtime) example_api 1%positive 2%positive
            example_now
            (example_store (example_payload ++ [("payed", PInt 1704164645)])
               example_headers))
     = Raise TypeError.
Proof.
  split; [|split; [|split]].
  - destruct (@handle_webhook_conversion_errors_escape reference_runtime example_api
                1%positive 2%positive example_now
                (example_store
                   [("invoice_id", PStr "1"); ("status", PStr "success");
                    ("amount", PNone); ("credited", PStr "9.5")]
                   example_headers)
                [("invoice_id", PStr "1"); ("status", PStr "success");
                 ("amount", PNone); ("credited", PStr "9.5")]
                example_headers eq_refl eq_refl eq_refl) as (_ & Hamount & _).
    destruct (Hamount (PStr "1") (PStr "success") PNone TypeError) as [H _];
      [intros v Hv; vm_compute in Hv; discriminate Hv | reflexivity.. | exact H].
  - destruct (@handle_webhook_conversion_errors_escape reference_runtime example_api
                1%positive 2%positive example_now
                (example_store
                   [("invoice_id", PStr "1"); ("status", PStr "success");
                    ("amount", PList [])]
                   example_headers)
                [("invoice_id", PStr "1"); ("status", PStr "success");
                 ("amount", PList [])]
                example_headers eq_refl eq_refl eq_refl) as (_ & Hamount & _).
    destruct (Hamount (PStr "1") (PStr "success") (PList []) TypeError) as [H _];
      [intros v Hv; vm_compute in Hv; discriminate Hv | reflexivity.. | exact H].
  - destruct (@handle_webhook_conversion_errors_escape reference_runtime example_api
                1%positive 2%positive example_now
                (example_store
                   [("invoice_id", PStr "1"); ("status", PStr "success");
                    ("amount", PStr "10.0"); ("credited", PStr "9,5")]
                   example_headers)
                [("invoice_id", PStr "1"); ("status", PStr "success");
                 ("amount", PStr "10.0"); ("credited", PStr "9,5")]
                example_headers eq_refl eq_refl eq_refl) as (_ & _ & Hcredited).
    destruct (Hcredited (PStr "1") (PStr "success") (PStr "10.0")
                (S754_finite false 5629499534213120 (-49)) (PStr "9,5") ValueError)
      as [H _];
      [intros v Hv; vm_compute in Hv; discriminate Hv | reflexivity.. | exact H].
  - destruct (@handle_webhook_conversion_errors_escape reference_runtime example_api
                1%positive 2%positive example_now
                (example_store (example_payload ++ [("payed", PInt 1704164645)])
                   example_headers)
                (example_payload ++ [("payed", PInt 1704164645)])
                example_headers eq_refl eq_refl eq_refl) as (Hpayed & _).
    destruct (Hpayed (PInt 1704164645)) as [H _]; [reflexivity | discriminate | exact H].
Defined.

Lemma create_invoice_missing_field_message_lost_witness :
  create_invoice (rt := reference_runtime)
    (PDict [("status", PInt 200); ("data", PDict [("id", PStr "1")])])
  = Raise (InvalidResponseException None).
Proof.
  apply (@create_invoice_missing_field_message_lost reference_runtime
           [("status", PInt 200); ("data", PDict [("id", PStr "1")])]
           [("id", PStr "1")] "amount").
  - reflexivity.
  - reflexivity.
  - simpl. auto.
  - reflexivity.
Defined.

Lemma handle_webhook_custom_field_absent_witness :
  exists info,
    snd (handle_webhook (rt := reference_runtime) example_api 1%positive 2%positive
           example_now (example_store example_payload example_headers))
    = Return info
    /\ SuccessfulInvoiceInfo.custom_field info = PNone
    /\ SuccessfulInvoiceInfo.custom_field info <> PStr "".
Proof.
  eexists. split; [vm_compute; reflexivity|].
  apply (@handle_webhook_custom_field_absent reference_runtime example_api
           1%positive 2%positive example_now
           (example_store example_payload example_headers)
           example_payload example_headers); reflexivity.
Defined.

Lemma payoff_missing_id_message_witness :
  payoff (rt := reference_runtime) (PDict [("status", PInt 200); ("data", PDict [])])
  = Raise (InvalidResponseException (Some "No 'payoff' field"))
  /\ payoff (rt := reference_runtime)
       (PDict [("status", PInt 200); ("data", PDict [("payoff_id", PInt 77)])])
     = Return "77".
Proof.
  split.
  - apply (@payoff_missing_id_message reference_runtime
             [("status", PInt 200); ("data", PDict [])] []); reflexivity.
  - exact (proj1 (proj2 (@payoff_missing_id_message reference_runtime
             [("status", PInt 200); ("data", PDict [("payoff_id", PInt 77)])]
             [("payoff_id", PInt 77)] eq_refl eq_refl)) eq_refl (PInt 77) eq_refl).
Defined.


Lemma handle_webhook_leaves_arguments_unchanged_witness :
  fst (handle_webhook (rt := reference_runtime) example_api 1%positive 2%positive
         example_now (example_store example_payload example_headers))
  !! 1%positive = Some example_payload
  /\ fst (handle_webhook (rt := reference_runtime) example_api 1%positive 2%positive
            example_now (example_store example_payload example_headers))
     !! 2%positive = Some example_headers
  /\ fst (handle_webhook (rt := reference_runtime) example_api 1%positive 1%positive
            example_now (example_store example_headers example_headers))
     !! 1%positive = Some example_headers.
Proof.
  split; [|split].
  - apply (@handle_webhook_leaves_arguments_unchanged reference_runtime example_api
             1%positive 2%positive example_now
             (example_store example_payload example_headers)
             example_payload example_headers); reflexivity.
  - apply (@handle_webhook_leaves_arguments_unchanged reference_runtime example_api
             1%positive 2%positive example_now
             (example_store example_payload example_headers)
             example_payload example_headers); reflexivity.
  - apply (@handle_webhook_leaves_arguments_unchanged reference_runtime example_api
             1%positive 1%positive example_now
             (example_store example_headers example_headers)
             example_headers example_headers); reflexivity.
Defined.

(** * Closed instances of the further properties *)

Lemma create_invoice_returns_iff_witness :
  exists info,
    create_invoice (rt := reference_runtime)
      (PDict [("status", PInt 200);
              ("data", PDict [("id", PStr "inv-1"); ("amount", PInt 10);
                              ("expired", PStr "2026-11-04 00:00:00"); ("status", PInt 1);
                              ("shop_id", PStr "shop"); ("url", PStr "https://pay");
                              ("include_service", PNone)])])
    = Return info
    /\ InvoiceInfo.merchant_name info = PStr "Merchant"
    /\ InvoiceInfo.include_service info = PList [].
Proof.
  eexists. split.
  { apply (@create_invoice_returns_iff reference_runtime).
    do 8 eexists.
    split; [reflexivity|]. split; [reflexivity|]. split; [reflexivity|].
    repeat (split; [reflexivity|]). reflexivity. }
  split; reflexivity.
Defined.

Lemma create_invoice_raises_witness :
  exn_code (InvalidSignatureException "Invalid signature. Code: 401; Message: no"
              (PStr "no") (PInt 401))
  = Some (PInt 401).
Proof.
  destruct (@create_invoice_raises reference_runtime
              (PDict [("status", PInt 401); ("error", PStr "no")])
              (InvalidSignatureException "Invalid signature. Code: 401; Message: no"
                 (PStr "no") (PInt 401)) eq_refl)
    as [H|(response & Hresp & Hcode & _)].
  - discriminate H.
  - injection Hresp as <-. exact Hcode.
Defined.

Lemma non_object_response_witness :
  create_invoice (rt := reference_runtime) (PList [])
  = Raise (InvalidResponseException None)
  /\ get_balance (rt := reference_runtime) (PList []) = Raise AttributeError
  /\ payoff (rt := reference_runtime) (PList []) = Raise AttributeError.
Proof. apply (@non_object_response reference_runtime (PList [])). reflexivity. Defined.

Lemma unprocessable_without_field_errors_witness :
  create_invoice (rt := reference_runtime) (PDict [("status", PInt 422)])
  = Raise (InvalidResponseException None)
  /\ get_balance (rt := reference_runtime) (PDict [("status", PInt 422)])
     = Raise (InvalidParameterException "Invalid parameters: " (PStr "None") (PInt 422))
  /\ payoff (rt := reference_runtime)
       (PDict [("status", PInt 422); ("error", PStr "bad wallet")])
     = Raise AttributeError.
Proof.
  split; [|split].
  - apply (@unprocessable_without_field_errors reference_runtime
             [("status", PInt 422)]); reflexivity.
  - apply (@unprocessable_without_field_errors reference_runtime
             [("status", PInt 422)]); reflexivity.
  - apply (proj2 (proj2 (@unprocessable_without_field_errors reference_runtime
             [("status", PInt 422); ("error", PStr "bad wallet")] eq_refl))
             (PStr "bad wallet")); reflexivity.
Defined.

Lemma get_balance_returns_iff_witness :
  get_balance (rt := reference_runtime)
    (PDict [("status", PInt 200); ("data", PDict [("balance", PStr "12.50")])])
  = Return (PStr "12.50").
Proof.
  apply (@get_balance_returns_iff reference_runtime).
  exists [("status", PInt 200); ("data", PDict [("balance", PStr "12.50")])],
         [("balance", PStr "12.50")].
  repeat split.
Defined.

Lemma payoff_returns_iff_witness :
  payoff (rt := reference_runtime)
    (PDict [("status", PInt 200); ("data", PDict [("payoff_id", PInt 77)])])
  = Return "77".
Proof.
  apply (@payoff_returns_iff reference_runtime).
  exists [("status", PInt 200); ("data", PDict [("payoff_id", PInt 77)])],
         [("payoff_id", PInt 77)], (PInt 77).
  repeat split.
Defined.

Lemma data_not_an_object_witness :
  get_balance (rt := reference_runtime) (PDict [("status", PInt 200); ("data", PNone)])
  = Raise TypeError
  /\ payoff (rt := reference_runtime) (PDict [("status", PInt 200); ("data", PNone)])
     = Raise TypeError
  /\ create_invoice (rt := reference_runtime)
       (PDict [("status", PInt 200); ("data", PNone)])
     = Raise (InvalidResponseException None).
Proof.
  apply (@data_not_an_object reference_runtime
           [("status", PInt 200); ("data", PNone)] PNone); reflexivity.
Defined.

Lemma handle_webhook_header_any_case_witness :
  snd (handle_webhook (rt := reference_runtime) example_api 1%positive 2%positive
         example_now (example_store example_payload [("AuThOrIzAtIoN", PStr "x")]))
  <> Raise (InvalidWebhookSignatureException "No 'Authorization' header").
Proof.
  intros H.
  apply (@handle_webhook_header_any_case reference_runtime example_api
           1%positive 2%positive example_now
           (example_store example_payload [("AuThOrIzAtIoN", PStr "x")])
           example_payload [("AuThOrIzAtIoN", PStr "x")] eq_refl eq_refl)
    with (k := "AuThOrIzAtIoN") (v := PStr "x") in H.
  - apply H. reflexivity.
  - left. reflexivity.
Defined.

Lemma handle_webhook_lowered_copy_witness :
  exists lowered,
    fst (handle_webhook (rt := reference_runtime) example_api 1%positive 2%positive
           example_now
           (example_store example_payload
              [("Authorization", PStr "first"); ("Accept", PStr "*/*");
               ("AUTHORIZATION", PStr "second")]))
    !! 3%positive = Some lowered
    /\ assoc "authorization" lowered = Some (PStr "second")
    /\ dict_keys lowered = ["authorization"; "accept"].
Proof.
  destruct (@handle_webhook_lowered_copy reference_runtime example_api
              1%positive 2%positive example_now
              (example_store example_payload
                 [("Authorization", PStr "first"); ("Accept", PStr "*/*");
                  ("AUTHORIZATION", PStr "second")])
              example_payload
              [("Authorization", PStr "first"); ("Accept", PStr "*/*");
               ("AUTHORIZATION", PStr "second")] eq_refl eq_refl)
    as (lowered & Hat & _ & _ & Hlook).
  exists lowered. split; [exact Hat|]. split; [rewrite Hlook; reflexivity|].
  vm_compute in Hat. injection Hat as <-. reflexivity.
Defined.


Lemma handle_webhook_returns_witness :
  exists info,
    snd (handle_webhook (rt := reference_runtime) example_api 1%positive 2%positive
           example_now
           (example_store (example_payload ++ [("custom_field", PStr "basket 7")])
              example_headers))
    = Return info
    /\ SuccessfulInvoiceInfo.custom_field info = PStr "basket 7"
    /\ SuccessfulInvoiceInfo.order_id info = PStr "".
Proof.
  eexists. split; [vm_compute; reflexivity|].
  split;
    apply (@handle_webhook_returns reference_runtime example_api 1%positive 2%positive
             example_now
             (example_store (example_payload ++ [("custom_field", PStr "basket 7")])
                example_headers)
             (example_payload ++ [("custom_field", PStr "basket 7")])
             example_headers _ eq_refl eq_refl eq_refl).
Defined.

Lemma generate_random_order_id_injective_witness :
  year example_now = year example_now
  /\ fst (randint (rt := reference_runtime) 0 9999 42)
     = fst (randint (rt := reference_runtime) 0 9999 42).
Proof.
  assert (Hclock : clock_reading example_now).
  { unfold clock_reading, example_now. simpl. lia. }
  destruct (@generate_random_order_id_injective reference_runtime
              example_now example_now 42 42 Hclock Hclock eq_refl)
    as (Hy & _ & _ & _ & _ & _ & Hr & _).
  split; [exact Hy | exact Hr].
Defined.

Lemma create_invoice_request_fields_witness :
  req_json
    (fst (create_invoice_request (rt := reference_runtime) example_api (PInt 10)
            (PStr "shop") (PStr "order-1") PNone PNone (PStr "hi") PNone PNone PNone
            (PList [PStr "card"]) PNone example_now 42))
  = [("orderId", PStr "order-1"); ("shopId", PStr "shop"); ("sum", PInt 10);
     ("comment", PStr "hi"); ("includeService", PList [PStr "card"])]
  /\ assoc "expire"
       (req_json
          (fst (create_invoice_request (rt := reference_runtime) example_api (PInt 10)
                  (PStr "shop") (PStr "order-1") PNone PNone (PStr "hi") PNone PNone
                  PNone (PList [PStr "card"]) PNone example_now 42)))
     = None.
Proof.
  split.
  - apply (@create_invoice_request_fields reference_runtime example_api (PInt 10)
             (PStr "shop") (PStr "order-1") PNone PNone (PStr "hi") PNone PNone PNone
             (PList [PStr "card"]) PNone example_now 42).
  - apply (proj1 (proj2 (proj2 (proj2
             (@create_invoice_request_fields reference_runtime example_api (PInt 10)
                (PStr "shop") (PStr "order-1") PNone PNone (PStr "hi") PNone PNone PNone
                (PList [PStr "card"]) PNone example_now 42)))) "expire" PNone).
    simpl. auto 10.
Defined.

Lemma request_order_id_witness :
  assoc "orderId"
    (req_json
       (fst (create_invoice_request (rt := reference_runtime) example_api (PInt 10)
               (PStr "shop") PNone PNone PNone PNone PNone PNone PNone PNone PNone
               example_now 42)))
  = Some (PStr "20261103-0042-143307-6027")
  /\ snd (create_invoice_request (rt := reference_runtime) example_api (PInt 10)
            (PStr "shop") (PStr "order-1") PNone PNone PNone PNone PNone PNone PNone
            PNone example_now 42)
     = 42.
Proof.
  assert (Hclock : clock_reading example_now).
  { unfold clock_reading, example_now. simpl. lia. }
  split.
  - destruct (proj2 (@request_order_id reference_runtime example_api (PInt 10)
                       (PStr "shop") PNone PNone PNone PNone PNone PNone PNone PNone
                       PNone (PStr "card") (PStr "4111") PNone example_now 42)
                eq_refl Hclock) as (_ & Hid & _).
    exact Hid.
  - destruct (proj1 (@request_order_id reference_runtime example_api (PInt 10)
                       (PStr "shop") (PStr "order-1") PNone PNone PNone PNone PNone
                       PNone PNone PNone (PStr "card") (PStr "4111") PNone
                       example_now 42) eq_refl) as (_ & Hg & _).
    exact Hg.
Defined.

Lemma payoff_request_service_witness :
  fst (payoff_request (rt := reference_runtime) example_api (PStr "shop") (PInt 10)
         (PInt 5) (PStr "4111") PNone PNone example_now 42)
  = Raise TypeError
  /\ snd (payoff_request (rt := reference_runtime) example_api (PStr "shop") (PInt 10)
            (PInt 5) (PStr "4111") PNone PNone example_now 42)
     = 1116302264
  /\ exists r,
       fst (payoff_request (rt := reference_runtime) example_api (PStr "shop") (PInt 10)
              (PStr "card") (PStr "4111") (PStr "o1") PNone example_now 42)
       = Return r
       /\ assoc "service" (req_json r) = Some (PStr "card_payoff").
Proof.
  split; [|split].
  - apply (@payoff_request_service reference_runtime example_api (PStr "shop") (PInt 10)
             (PInt 5) (PStr "4111") PNone PNone example_now 42).
    intros s. discriminate.
  - apply (@payoff_request_service reference_runtime example_api (PStr "shop") (PInt 10)
             (PInt 5) (PStr "4111") PNone PNone example_now 42).
  - destruct (proj1 (@payoff_request_service reference_runtime example_api (PStr "shop")
                       (PInt 10) (PStr "card") (PStr "4111") (PStr "o1") PNone
                       example_now 42) "card" eq_refl) as (r & Hr & Hfields).
    exists r. split; [exact Hr|]. rewrite Hfields. reflexivity.
Defined.

Lemma signed_body_ascii_witness :
  printable_ascii
    (json_dumps (rt := reference_runtime)
       (PDict [("comment", PStr (String (ascii_of_nat 233) (String (ascii_of_nat 10) "x")));
               ("sum", PFloat (S754_finite false 5348024557502464 (-49)))]))
  = true.
Proof.
  apply (@signed_body_ascii reference_runtime example_api "https://api.lava.ru/"
           [("comment", PStr (String (ascii_of_nat 233) (String (ascii_of_nat 10) "x")));
            ("sum", PFloat (S754_finite false 5348024557502464 (-49)))]).
  intros f. reflexivity.
Defined.
